(** * WiTrace CSI receiver firmware: a shallow embedding of
      [firmware/csi_receiver/main/csi_receiver.c] and the properties of
      its two callbacks and of its initialisation sequence.

    The C code only calls into the vendor stack and into [printf]; it keeps
    no state of its own.  Every call that leaves the program is recorded as
    an [effect] in a chronological trace, and each C function becomes a
    computation in a small trace-passing monad [M]. *)

From Stdlib Require Import ZArith String Ascii Bool Lia List.
From Stdlib.Strings Require Import Byte.
From Stdlib Require Import Decimal DecimalString.
From Stdlib Require DecimalPos DecimalZ.
Import ListNotations.

Local Open Scope Z_scope.

(* ------------------------------------------------------------------ *)
(** * Values that cross the vendor interface *)

(** Addresses ([void *], [const char *]); [NULL] is address zero. *)
Definition ptr := Z.
Definition NULL : ptr := 0.

(** [esp_event_base_t] is a [const char *]; the handler compares bases by
    address ([==]). *)
Definition esp_event_base_t := ptr.

(** Addresses of the two callbacks the firmware hands to the stack, one
    type per C function-pointer type. *)
Inductive wifi_csi_cb_t : Type := addr_wifi_csi_cb.
Inductive esp_event_handler_t : Type := addr_wifi_event_handler.

(** Modelled from the spec: [wifi_csi_info_t] is declared in the vendor
    header [esp_wifi_types.h], which is not among the sources.  The spec's
    data model gives a CSI sample as an externally owned buffer of signed
    byte values plus a length.  [buf] is the storage behind [info->buf],
    one raw byte per element; [len] is the value of [info->len] as it
    enters the comparison [i < info->len]. *)
Record wifi_csi_info_t : Type := {
  buf : list byte;
  len : Z
}.

(** Modelled from the spec: [wifi_init_config_t] and the macro
    [WIFI_INIT_CONFIG_DEFAULT()] come from [esp_wifi.h]; the spec calls
    the value "default tuning parameters", and it is the only value of
    that type the firmware ever builds. *)
Inductive wifi_init_config_t : Type := WIFI_INIT_CONFIG_DEFAULT.

(** The [.sta] member of [wifi_config_t], with the three fields that the
    designated initialiser of [wifi_init] sets. *)
Record wifi_config_t : Type := {
  sta_ssid : string;
  sta_password : string;
  sta_threshold_authmode : Z
}.

(** Modelled from the spec: [wifi_csi_config_t] ([esp_wifi_types.h]) is a
    record of boolean feature flags; the fields are the seven that
    [wifi_init] sets. *)
Record wifi_csi_config_t : Type := {
  lltf_en : bool;
  htltf_en : bool;
  stbc_htltf2_en : bool;
  ltf_merge_en : bool;
  channel_filter_en : bool;
  manu_scale : bool;
  shift : bool
}.

(* ------------------------------------------------------------------ *)
(** * Observable effects *)

(** One constructor per way the firmware reaches outside itself.  [E_load]
    is instrumentation: it records each read of [info->buf[i]]. *)
Inductive effect : Type :=
| E_stdout (s : string)
| E_load (i : Z)
| E_ESP_LOGI (tag msg : string)
| E_esp_wifi_connect
| E_nvs_flash_init
| E_esp_netif_init
| E_esp_event_loop_create_default
| E_esp_netif_create_default_wifi_sta
| E_esp_wifi_init (cfg : wifi_init_config_t)
| E_esp_event_handler_instance_register
    (event_base : esp_event_base_t) (event_id : Z)
    (handler : esp_event_handler_t) (arg : ptr) (instance : ptr)
| E_esp_wifi_set_mode (mode : Z)
| E_esp_wifi_set_config (interface : Z) (conf : wifi_config_t)
| E_esp_wifi_start
| E_esp_wifi_set_csi_config (config : wifi_csi_config_t)
| E_esp_wifi_set_csi_rx_cb (cb : wifi_csi_cb_t) (ctx : ptr)
| E_esp_wifi_set_csi (en : bool).

Definition trace := list effect.

(** Projections of a trace. *)
Fixpoint stdout_of (tr : trace) : string :=
  match tr with
  | [] => EmptyString
  | E_stdout s :: tr' => String.append s (stdout_of tr')
  | _ :: tr' => stdout_of tr'
  end.

Fixpoint loads_of (tr : trace) : list Z :=
  match tr with
  | [] => []
  | E_load i :: tr' => i :: loads_of tr'
  | _ :: tr' => loads_of tr'
  end.

Fixpoint connects_of (tr : trace) : nat :=
  match tr with
  | [] => O
  | E_esp_wifi_connect :: tr' => S (connects_of tr')
  | _ :: tr' => connects_of tr'
  end.

Fixpoint logs_of (tr : trace) : list (string * string) :=
  match tr with
  | [] => []
  | E_ESP_LOGI tag msg :: tr' => (tag, msg) :: logs_of tr'
  | _ :: tr' => logs_of tr'
  end.

(* ------------------------------------------------------------------ *)
(** * The trace-passing monad *)

(** A run either finishes, or stops at undefined behaviour ([Fault], with
    the trace up to that point), or exhausts the fuel given to a loop. *)
Inductive outcome (A : Type) : Type :=
| Ok (a : A) (tr : trace)
| Fault (tr : trace)
| OutOfFuel.

Arguments Ok {A} a tr.
Arguments Fault {A} tr.
Arguments OutOfFuel {A}.

Definition M (A : Type) : Type := trace -> outcome A.

Definition ret {A : Type} (a : A) : M A := fun tr => Ok a tr.

Definition bind {A B : Type} (m : M A) (k : A -> M B) : M B :=
  fun tr =>
    match m tr with
    | Ok a tr' => k a tr'
    | Fault tr' => Fault tr'
    | OutOfFuel => OutOfFuel
    end.

Definition emit (e : effect) : M unit := fun tr => Ok tt (tr ++ [e]).

Definition fault {A : Type} : M A := fun tr => Fault tr.

Definition out_of_fuel {A : Type} : M A := fun _ => OutOfFuel.

Declare Scope monad_scope.
Delimit Scope monad_scope with monad.
Notation "x <- m ;; k" := (bind m (fun x => k))
  (at level 61, m at next level, right associativity) : monad_scope.
Notation "m ;; k" := (bind m (fun _ => k))
  (at level 61, right associativity) : monad_scope.
Local Open Scope monad_scope.

(** Histories are only ever extended: [prepend tr o] is the outcome [o]
    of a run from the empty trace, replayed after the history [tr]. *)
Definition prepend {A : Type} (tr : trace) (o : outcome A) : outcome A :=
  match o with
  | Ok a tr' => Ok a (tr ++ tr')
  | Fault tr' => Fault (tr ++ tr')
  | OutOfFuel => OutOfFuel
  end.

(** A computation is [framed] when it only extends the history it is
    started from, and does so without looking at it. *)
Definition framed {A : Type} (m : M A) : Prop :=
  forall tr, m tr = prepend tr (m []).

(* ------------------------------------------------------------------ *)
(** * The C library and the vendor calls the firmware uses *)

(** The line feed written by ["\n"]. *)
Definition LF : string := String "010"%char EmptyString.

(** [%d] of an [int]: sign and decimal digits, no padding. *)
Definition decimal (v : Z) : string := NilZero.string_of_int (Z.to_int v).

(** Expansion of a [printf] format in which [%d] is the only conversion;
    [None] when a conversion has no argument left. *)
Fixpoint format (fmt : string) (args : list Z) : option string :=
  match fmt with
  | EmptyString => Some EmptyString
  | String "%"%char (String "d"%char rest) =>
      match args with
      | [] => None
      | v :: args' => option_map (String.append (decimal v)) (format rest args')
      end
  | String c rest => option_map (String c) (format rest args)
  end.

Definition printf (fmt : string) (args : list Z) : M unit :=
  match format fmt args with
  | Some s => emit (E_stdout s)
  | None => fault
  end.

(** An [int8_t] read from one raw byte. *)
Definition int8_of_byte (b : byte) : Z :=
  let n := Z.of_N (Byte.to_N b) in
  if n <? 128 then n else n - 256.

(** [info->buf[i]]: the read is recorded, then it either yields the
    element or, outside the storage, is undefined behaviour. *)
Definition load_buf (info : wifi_csi_info_t) (i : Z) : M Z :=
  emit (E_load i) ;;
  if i <? 0 then fault
  else match nth_error (buf info) (Z.to_nat i) with
       | Some b => ret (int8_of_byte b)
       | None => fault
       end.

(** The largest [int]; [i++] beyond it is undefined behaviour. *)
Definition INT_MAX : Z := 2147483647.

Definition int_incr (i : Z) : M Z :=
  if i <? INT_MAX then ret (i + 1) else fault.

Definition ESP_LOGI (tag msg : string) : M unit := emit (E_ESP_LOGI tag msg).
Definition esp_wifi_connect : M unit := emit E_esp_wifi_connect.
Definition nvs_flash_init : M unit := emit E_nvs_flash_init.
Definition esp_netif_init : M unit := emit E_esp_netif_init.
Definition esp_event_loop_create_default : M unit :=
  emit E_esp_event_loop_create_default.
Definition esp_netif_create_default_wifi_sta : M unit :=
  emit E_esp_netif_create_default_wifi_sta.
Definition esp_wifi_init (cfg : wifi_init_config_t) : M unit :=
  emit (E_esp_wifi_init cfg).
Definition esp_event_handler_instance_register
    (event_base : esp_event_base_t) (event_id : Z)
    (handler : esp_event_handler_t) (arg instance : ptr) : M unit :=
  emit (E_esp_event_handler_instance_register
          event_base event_id handler arg instance).
Definition esp_wifi_set_mode (mode : Z) : M unit :=
  emit (E_esp_wifi_set_mode mode).
Definition esp_wifi_set_config (interface : Z) (conf : wifi_config_t)
  : M unit := emit (E_esp_wifi_set_config interface conf).
Definition esp_wifi_start : M unit := emit E_esp_wifi_start.
Definition esp_wifi_set_csi_config (config : wifi_csi_config_t) : M unit :=
  emit (E_esp_wifi_set_csi_config config).
Definition esp_wifi_set_csi_rx_cb (cb : wifi_csi_cb_t) (ctx : ptr) : M unit :=
  emit (E_esp_wifi_set_csi_rx_cb cb ctx).
Definition esp_wifi_set_csi (en : bool) : M unit :=
  emit (E_esp_wifi_set_csi en).

(* ------------------------------------------------------------------ *)
(** * The firmware *)

Definition WIFI_SSID : string := "Connecting...".
Definition WIFI_PASS : string := "Error501".
Definition TAG : string := "CSI".

(** The [for] loop of [wifi_csi_cb], entered with the current value of
    the [int] counter [i]; one unit of fuel per evaluation of the guard. *)
Fixpoint wifi_csi_cb_loop (fuel : nat) (info : wifi_csi_info_t) (i : Z)
  : M unit :=
  match fuel with
  | O => out_of_fuel
  | S fuel' =>
      if i <? len info then
        v <- load_buf info i ;;
        printf "%d " [v] ;;
        i' <- int_incr i ;;
        wifi_csi_cb_loop fuel' info i'
      else ret tt
  end.

Definition wifi_csi_cb (fuel : nat) (ctx : ptr) (info : wifi_csi_info_t)
  : M unit :=
  printf "CSI_DATA: " [] ;;
  wifi_csi_cb_loop fuel info 0 ;;
  printf LF [].

(** ** Constants of the vendor headers

    [esp_wifi.h], [esp_event.h] and [esp_netif.h] are not among the
    sources, so the constants the firmware takes from them are parameters
    of the development: two event bases (addresses) and seven integer
    constants. *)
Section Firmware.

Variables WIFI_EVENT IP_EVENT : esp_event_base_t.
Variables WIFI_EVENT_STA_START WIFI_EVENT_STA_DISCONNECTED : Z.
Variables IP_EVENT_STA_GOT_IP ESP_EVENT_ANY_ID : Z.
Variables WIFI_MODE_STA WIFI_IF_STA WIFI_AUTH_WPA2_PSK : Z.

Definition wifi_event_handler (arg : ptr) (event_base : esp_event_base_t)
    (event_id : Z) (event_data : ptr) : M unit :=
  if (event_base =? WIFI_EVENT) && (event_id =? WIFI_EVENT_STA_START) then
    esp_wifi_connect
  else if (event_base =? WIFI_EVENT)
          && (event_id =? WIFI_EVENT_STA_DISCONNECTED) then
    esp_wifi_connect ;;
    ESP_LOGI TAG "Retrying WiFi connection..."
  else if (event_base =? IP_EVENT) && (event_id =? IP_EVENT_STA_GOT_IP) then
    ESP_LOGI TAG "WiFi connected. CSI should start appearing."
  else ret tt.

Definition wifi_config : wifi_config_t :=
  {| sta_ssid := WIFI_SSID;
     sta_password := WIFI_PASS;
     sta_threshold_authmode := WIFI_AUTH_WPA2_PSK |}.

Definition csi_config : wifi_csi_config_t :=
  {| lltf_en := true;
     htltf_en := true;
     stbc_htltf2_en := true;
     ltf_merge_en := true;
     channel_filter_en := false;
     manu_scale := false;
     shift := false |}.

Definition wifi_init : M unit :=
  esp_netif_init ;;
  esp_event_loop_create_default ;;
  esp_netif_create_default_wifi_sta ;;
  let cfg := WIFI_INIT_CONFIG_DEFAULT in
  esp_wifi_init cfg ;;
  esp_event_handler_instance_register
    WIFI_EVENT ESP_EVENT_ANY_ID addr_wifi_event_handler NULL NULL ;;
  esp_event_handler_instance_register
    IP_EVENT IP_EVENT_STA_GOT_IP addr_wifi_event_handler NULL NULL ;;
  esp_wifi_set_mode WIFI_MODE_STA ;;
  esp_wifi_set_config WIFI_IF_STA wifi_config ;;
  esp_wifi_start ;;
  esp_wifi_set_csi_config csi_config ;;
  esp_wifi_set_csi_rx_cb addr_wifi_csi_cb NULL ;;
  esp_wifi_set_csi true ;;
  ESP_LOGI TAG "CSI initialized".

Definition app_main : M unit :=
  nvs_flash_init ;;
  wifi_init.

(* ------------------------------------------------------------------ *)
(** * The environment of the callbacks *)

(** An event as the dispatch loop hands it over: base, id, data. *)
Definition esp_event : Type := esp_event_base_t * Z * ptr.

(** The dispatch loop calls the handler once per event, one event after
    the other, with the [arg] given at registration. *)
Fixpoint deliver_events (arg : ptr) (evs : list esp_event) : M unit :=
  match evs with
  | [] => ret tt
  | (event_base, event_id, event_data) :: evs' =>
      wifi_event_handler arg event_base event_id event_data ;;
      deliver_events arg evs'
  end.

(** The three kinds of event the handler reacts to. *)
Definition is_sta_start (ev : esp_event) : Prop :=
  fst (fst ev) = WIFI_EVENT /\ snd (fst ev) = WIFI_EVENT_STA_START.
Definition is_sta_disconnected (ev : esp_event) : Prop :=
  fst (fst ev) = WIFI_EVENT /\ snd (fst ev) = WIFI_EVENT_STA_DISCONNECTED.
Definition is_got_ip (ev : esp_event) : Prop :=
  fst (fst ev) = IP_EVENT /\ snd (fst ev) = IP_EVENT_STA_GOT_IP.

(** Lines 91 to 93 of [wifi_init] as a sequence of its own: the capture
    registration with arbitrary arguments. *)
Definition csi_register (config : wifi_csi_config_t) (cb : wifi_csi_cb_t)
    (ctx : ptr) : M unit :=
  esp_wifi_set_csi_config config ;;
  esp_wifi_set_csi_rx_cb cb ctx ;;
  esp_wifi_set_csi true.

(** Modelled from the spec: the radio driver behind
    [esp_wifi_set_csi_config], [esp_wifi_set_csi_rx_cb] and
    [esp_wifi_set_csi] is vendor code outside the sources.  Section 4.2 of
    the spec: registration installs the capture configuration on the radio
    and designates the callback as the exclusive receiver of subsequent
    samples; enabling capture is a separate explicit step.  The radio thus
    holds one configuration, one receiver and one enable flag, and each
    call replaces the one it names. *)
Record radio : Type := {
  radio_csi_config : option wifi_csi_config_t;
  radio_csi_rx_cb : option (wifi_csi_cb_t * ptr);
  radio_csi : bool
}.

Definition radio_call (r : radio) (e : effect) : radio :=
  match e with
  | E_esp_wifi_set_csi_config config =>
      {| radio_csi_config := Some config;
         radio_csi_rx_cb := radio_csi_rx_cb r;
         radio_csi := radio_csi r |}
  | E_esp_wifi_set_csi_rx_cb cb ctx =>
      {| radio_csi_config := radio_csi_config r;
         radio_csi_rx_cb := Some (cb, ctx);
         radio_csi := radio_csi r |}
  | E_esp_wifi_set_csi en =>
      {| radio_csi_config := radio_csi_config r;
         radio_csi_rx_cb := radio_csi_rx_cb r;
         radio_csi := en |}
  | _ => r
  end.

Definition radio_after (r : radio) (tr : trace) : radio :=
  fold_left radio_call tr r.

(** The code behind a callback address. *)
Definition call_csi_cb (cb : wifi_csi_cb_t)
  : nat -> ptr -> wifi_csi_info_t -> M unit :=
  match cb with
  | addr_wifi_csi_cb => wifi_csi_cb
  end.

(** Modelled from the spec: delivery of one captured sample by the driver,
    to the designated receiver and only while capture is enabled. *)
Definition radio_deliver (r : radio) (fuel : nat) (info : wifi_csi_info_t)
  : M unit :=
  if radio_csi r then
    match radio_csi_rx_cb r with
    | Some (cb, ctx) => call_csi_cb cb fuel ctx info
    | None => ret tt
    end
  else ret tt.

Fixpoint radio_deliver_all (r : radio) (fuel : nat)
    (samples : list wifi_csi_info_t) : M unit :=
  match samples with
  | [] => ret tt
  | info :: samples' =>
      radio_deliver r fuel info ;;
      radio_deliver_all r fuel samples'
  end.

(* ------------------------------------------------------------------ *)
(** * The statements of the specification, in its own words *)

(** The output line as the specification words it: the label, the decimal
    tokens separated by single spaces, a newline. *)
Definition spec_csi_line (values : list Z) : string :=
  String.append "CSI_DATA: "
    (String.append (String.concat " " (map decimal values)) LF).

(** The steps of [initialize()] in the vocabulary of the specification's
    interface section. *)
Inductive step : Type :=
| initialize_network_runtime
| create_default_event_loop
| create_default_station_interface
| initialize_radio
| subscribe
| set_mode
| apply_config
| start
| connect
| set_capture_config
| register_capture_callback
| set_capture_enabled.

Definition step_of (e : effect) : option step :=
  match e with
  | E_esp_netif_init => Some initialize_network_runtime
  | E_esp_event_loop_create_default => Some create_default_event_loop
  | E_esp_netif_create_default_wifi_sta =>
      Some create_default_station_interface
  | E_esp_wifi_init _ => Some initialize_radio
  | E_esp_event_handler_instance_register _ _ _ _ _ => Some subscribe
  | E_esp_wifi_set_mode _ => Some set_mode
  | E_esp_wifi_set_config _ _ => Some apply_config
  | E_esp_wifi_start => Some start
  | E_esp_wifi_connect => Some connect
  | E_esp_wifi_set_csi_config _ => Some set_capture_config
  | E_esp_wifi_set_csi_rx_cb _ _ => Some register_capture_callback
  | E_esp_wifi_set_csi _ => Some set_capture_enabled
  | E_stdout _ | E_load _ | E_ESP_LOGI _ _ | E_nvs_flash_init => None
  end.

Fixpoint steps_of (tr : trace) : list step :=
  match tr with
  | [] => []
  | e :: tr' =>
      match step_of e with
      | Some s => s :: steps_of tr'
      | None => steps_of tr'
      end
  end.

Definition step_eqb (a b : step) : bool :=
  match a, b with
  | initialize_network_runtime, initialize_network_runtime
  | create_default_event_loop, create_default_event_loop
  | create_default_station_interface, create_default_station_interface
  | initialize_radio, initialize_radio
  | subscribe, subscribe
  | set_mode, set_mode
  | apply_config, apply_config
  | start, start
  | connect, connect
  | set_capture_config, set_capture_config
  | register_capture_callback, register_capture_callback
  | set_capture_enabled, set_capture_enabled => true
  | _, _ => false
  end.

(** "The steps [xs] occur in [ys] in the order given, possibly with other
    steps in between", as a relation and as a test. *)
Inductive occurs_in_order : list step -> list step -> Prop :=
| occurs_none (ys : list step) : occurs_in_order [] ys
| occurs_here (x : step) (xs ys : list step) :
    occurs_in_order xs ys -> occurs_in_order (x :: xs) (x :: ys)
| occurs_later (xs : list step) (y : step) (ys : list step) :
    occurs_in_order xs ys -> occurs_in_order xs (y :: ys).

Fixpoint in_order (xs ys : list step) : bool :=
  match ys with
  | [] => match xs with [] => true | _ :: _ => false end
  | y :: ys' =>
      match xs with
      | [] => true
      | x :: xs' => if step_eqb x y then in_order xs' ys' else in_order xs ys'
      end
  end.

(** The order the specification gives for [initialize()]; the subscription
    to two event classes is two [subscribe] steps. *)
Definition spec_initialize_order : list step :=
  [ initialize_network_runtime; create_default_event_loop;
    create_default_station_interface; initialize_radio;
    subscribe; subscribe; apply_config; set_mode; start ].

(** The trace a run leaves behind, where it keeps one. *)
Definition trace_of {A : Type} (o : outcome A) : trace :=
  match o with
  | Ok _ tr => tr
  | Fault tr => tr
  | OutOfFuel => []
  end.

(** ** What the callback does write *)

(** Whether the buffer holds the [len] elements the callback is told of. *)
Definition holds_sample (info : wifi_csi_info_t) : bool :=
  len info <=? Z.of_nat (length (buf info)).

(** The values the callback prints: the first [len] elements of the
    buffer, each read as an [int8_t]. *)
Definition sample_values (info : wifi_csi_info_t) : list Z :=
  map int8_of_byte (firstn (Z.to_nat (len info)) (buf info)).

(** Every value is followed by one space. *)
Fixpoint csi_body (values : list Z) : string :=
  match values with
  | [] => EmptyString
  | v :: values' =>
      String.append (decimal v) (String " "%char (csi_body values'))
  end.

Definition csi_line (values : list Z) : string :=
  String.append "CSI_DATA: " (String.append (csi_body values) LF).

(** The effects of the loop for the bytes [bs] stored from index [i] on. *)
Fixpoint loop_effects (i : Z) (bs : list byte) : trace :=
  match bs with
  | [] => []
  | b :: bs' =>
      E_load i
      :: E_stdout (String.append (decimal (int8_of_byte b)) " ")
      :: loop_effects (i + 1) bs'
  end.

(** [i; i+1; ...], [n] indices. *)
Fixpoint Zseq (i : Z) (n : nat) : list Z :=
  match n with
  | O => []
  | S n' => i :: Zseq (i + 1) n'
  end.

(** The tokens of a string: its maximal runs of characters other than the
    space, [acc] being the run read so far. *)
Fixpoint tokens_from (acc s : string) : list string :=
  match s with
  | EmptyString =>
      match acc with EmptyString => [] | String _ _ => [acc] end
  | String c s' =>
      if Ascii.eqb c " "%char then
        match acc with
        | EmptyString => tokens_from EmptyString s'
        | String _ _ => acc :: tokens_from EmptyString s'
        end
      else tokens_from (String.append acc (String c EmptyString)) s'
  end.

Definition tokens (s : string) : list string := tokens_from EmptyString s.

(** A character that can stand in a decimal token. *)
Definition token_char (c : ascii) : Prop :=
  c <> " "%char /\ c <> "010"%char.

Fixpoint all_chars (P : ascii -> Prop) (s : string) : Prop :=
  match s with
  | EmptyString => True
  | String c s' => P c /\ all_chars P s'
  end.

(** Two samples the theorems are tried on: [1, -2, 44] (44 is what is
    left of 300 in a byte), and the sample of length 0. *)
Definition sample_1_m2_44 : wifi_csi_info_t :=
  {| buf := [x01; xfe; x2c]; len := 3 |}.

Definition sample_empty : wifi_csi_info_t :=
  {| buf := []; len := 0 |}.

(** ** Streams of stimuli and of text *)

(** The driver calling the CSI callback for one captured sample after the
    other, with the context given at registration. *)
Fixpoint deliver_samples (fuel : nat) (ctx : ptr)
    (infos : list wifi_csi_info_t) : M unit :=
  match infos with
  | [] => ret tt
  | info :: infos' =>
      wifi_csi_cb fuel ctx info ;;
      deliver_samples fuel ctx infos'
  end.

(** What reaches the firmware once it is initialised: an event for the
    handler or a sample for the CSI callback, in any interleaving. *)
Inductive stimulus : Type :=
| on_event (ev : esp_event)
| on_sample (info : wifi_csi_info_t).

Fixpoint react (fuel : nat) (arg ctx : ptr) (sts : list stimulus) : M unit :=
  match sts with
  | [] => ret tt
  | on_event (event_base, event_id, event_data) :: sts' =>
      wifi_event_handler arg event_base event_id event_data ;;
      react fuel arg ctx sts'
  | on_sample info :: sts' =>
      wifi_csi_cb fuel ctx info ;;
      react fuel arg ctx sts'
  end.

Fixpoint events_of (sts : list stimulus) : list esp_event :=
  match sts with
  | [] => []
  | on_event ev :: sts' => ev :: events_of sts'
  | on_sample _ :: sts' => events_of sts'
  end.

Fixpoint samples_of (sts : list stimulus) : list wifi_csi_info_t :=
  match sts with
  | [] => []
  | on_event _ :: sts' => samples_of sts'
  | on_sample info :: sts' => info :: samples_of sts'
  end.

(** The three kinds of event, as tests. *)
Definition is_sta_startb (ev : esp_event) : bool :=
  (fst (fst ev) =? WIFI_EVENT) && (snd (fst ev) =? WIFI_EVENT_STA_START).
Definition is_sta_disconnectedb (ev : esp_event) : bool :=
  (fst (fst ev) =? WIFI_EVENT)
  && (snd (fst ev) =? WIFI_EVENT_STA_DISCONNECTED).
Definition is_got_ipb (ev : esp_event) : bool :=
  (fst (fst ev) =? IP_EVENT) && (snd (fst ev) =? IP_EVENT_STA_GOT_IP).

(** The effects the two callbacks are built from. *)
Definition is_stdout_or_load (e : effect) : bool :=
  match e with
  | E_stdout _ | E_load _ => true
  | _ => false
  end.

Definition is_connect_or_log (e : effect) : bool :=
  match e with
  | E_esp_wifi_connect | E_ESP_LOGI _ _ => true
  | _ => false
  end.

(** The number of [printf] calls in a trace. *)
Fixpoint printf_calls (tr : trace) : nat :=
  match tr with
  | [] => O
  | E_stdout _ :: tr' => S (printf_calls tr')
  | _ :: tr' => printf_calls tr'
  end.

(** The lines of a text: the runs of characters ended by a line feed,
    [acc] being the run read so far; a last run without line feed counts
    when it is not empty. *)
Fixpoint lines_from (acc s : string) : list string :=
  match s with
  | EmptyString =>
      match acc with EmptyString => [] | String _ _ => [acc] end
  | String c s' =>
      if Ascii.eqb c "010"%char then acc :: lines_from EmptyString s'
      else lines_from (String.append acc (String c EmptyString)) s'
  end.

Definition lines (s : string) : list string := lines_from EmptyString s.

(** The effects of one run of the callback on a sample its buffer holds,
    and the text of several such runs. *)
Definition line_effects (info : wifi_csi_info_t) : trace :=
  E_stdout "CSI_DATA: "
  :: loop_effects 0 (firstn (Z.to_nat (len info)) (buf info))
  ++ [E_stdout LF].

Fixpoint csi_text (infos : list wifi_csi_info_t) : string :=
  match infos with
  | [] => EmptyString
  | info :: infos' =>
      String.append (csi_line (sample_values info)) (csi_text infos')
  end.

(** A sample as the driver is to deliver it: the buffer holds the [len]
    elements, and [len] is an [int]. *)
Definition delivered (info : wifi_csi_info_t) : Prop :=
  len info <= Z.of_nat (length (buf info)) /\ len info <= INT_MAX.

(* ------------------------------------------------------------------ *)
(** * Properties of the monad *)

Lemma prepend_nil {A : Type} (o : outcome A) : prepend [] o = o.
Proof. destruct o; reflexivity. Qed.

Lemma prepend_app {A : Type} (t1 t2 : trace) (o : outcome A) :
  prepend (t1 ++ t2) o = prepend t1 (prepend t2 o).
Proof. destruct o; simpl; now rewrite <- ?app_assoc. Qed.

Lemma framed_ret {A : Type} (a : A) : framed (ret a).
Proof. intros tr. unfold ret. simpl. now rewrite app_nil_r. Qed.

Lemma framed_emit (e : effect) : framed (emit e).
Proof. intros tr. reflexivity. Qed.

Lemma framed_fault {A : Type} : framed (@fault A).
Proof. intros tr. unfold fault. simpl. now rewrite app_nil_r. Qed.

Lemma framed_out_of_fuel {A : Type} : framed (@out_of_fuel A).
Proof. intros tr. reflexivity. Qed.

Lemma framed_bind {A B : Type} (m : M A) (k : A -> M B) :
  framed m -> (forall a, framed (k a)) -> framed (bind m k).
Proof.
  intros Hm Hk tr. unfold bind. rewrite (Hm tr).
  destruct (m []) as [a t| t |]; simpl; try reflexivity.
  rewrite (Hk a (tr ++ t)), (Hk a t). apply prepend_app.
Qed.

Lemma framed_printf (fmt : string) (args : list Z) : framed (printf fmt args).
Proof.
  unfold printf. destruct (format fmt args);
    [apply framed_emit | apply framed_fault].
Qed.

Lemma framed_load_buf (info : wifi_csi_info_t) (i : Z) :
  framed (load_buf info i).
Proof.
  unfold load_buf. apply framed_bind; [apply framed_emit | intros _].
  destruct (i <? 0); [apply framed_fault |].
  destruct (nth_error _ _); [apply framed_ret | apply framed_fault].
Qed.

Lemma framed_int_incr (i : Z) : framed (int_incr i).
Proof.
  unfold int_incr. destruct (i <? INT_MAX);
    [apply framed_ret | apply framed_fault].
Qed.

Create HintDb framed.
#[local] Hint Resolve framed_ret framed_emit framed_fault framed_out_of_fuel
  framed_printf framed_load_buf framed_int_incr : framed.

Lemma framed_wifi_csi_cb_loop (fuel : nat) (info : wifi_csi_info_t) (i : Z) :
  framed (wifi_csi_cb_loop fuel info i).
Proof.
  revert i. induction fuel as [|fuel IH]; intros i; simpl.
  - auto with framed.
  - destruct (i <? len info); [| auto with framed].
    apply framed_bind; [auto with framed | intros v].
    apply framed_bind; [auto with framed | intros _].
    apply framed_bind; [auto with framed | intros i']. apply IH.
Qed.

Lemma framed_wifi_csi_cb (fuel : nat) (ctx : ptr) (info : wifi_csi_info_t) :
  framed (wifi_csi_cb fuel ctx info).
Proof.
  unfold wifi_csi_cb.
  apply framed_bind; [auto with framed | intros _].
  apply framed_bind; [apply framed_wifi_csi_cb_loop | intros _].
  auto with framed.
Qed.

(** ** Projections of concatenated traces *)

Lemma stdout_of_app (t1 t2 : trace) :
  stdout_of (t1 ++ t2) = String.append (stdout_of t1) (stdout_of t2).
Proof.
  induction t1 as [|e t1 IH]; simpl; [reflexivity |].
  destruct e; simpl; rewrite ?IH; try reflexivity.
  induction s as [|c s IHs]; simpl; [reflexivity | now rewrite IHs].
Qed.

Lemma loads_of_app (t1 t2 : trace) :
  loads_of (t1 ++ t2) = loads_of t1 ++ loads_of t2.
Proof.
  induction t1 as [|e t1 IH]; simpl; [reflexivity |].
  destruct e; simpl; now rewrite ?IH.
Qed.

Lemma connects_of_app (t1 t2 : trace) :
  connects_of (t1 ++ t2) = (connects_of t1 + connects_of t2)%nat.
Proof.
  induction t1 as [|e t1 IH]; simpl; [reflexivity |].
  destruct e; simpl; now rewrite ?IH.
Qed.

Lemma logs_of_app (t1 t2 : trace) :
  logs_of (t1 ++ t2) = logs_of t1 ++ logs_of t2.
Proof.
  induction t1 as [|e t1 IH]; simpl; [reflexivity |].
  destruct e; simpl; now rewrite ?IH.
Qed.

(* ------------------------------------------------------------------ *)
(** * The CSI callback *)

Lemma format_d_space (v : Z) :
  format "%d " [v] = Some (String.append (decimal v) " ").
Proof. reflexivity. Qed.

Lemma printf_d_space (v : Z) (tr : trace) :
  printf "%d " [v] tr = Ok tt (tr ++ [E_stdout (String.append (decimal v) " ")]).
Proof. reflexivity. Qed.

(** One turn of the loop, when the guard holds and the element exists. *)
Lemma wifi_csi_cb_loop_step (fuel : nat) (info : wifi_csi_info_t) (i : Z)
    (b : byte) (tr : trace) :
  0 <= i < len info ->
  len info <= INT_MAX ->
  nth_error (buf info) (Z.to_nat i) = Some b ->
  wifi_csi_cb_loop (S fuel) info i tr =
  wifi_csi_cb_loop fuel info (i + 1) (tr ++ loop_effects i [b]).
Proof.
  intros Hi Hmax Hb. simpl.
  replace (i <? len info) with true by (symmetry; apply Z.ltb_lt; lia).
  unfold bind at 1, load_buf, bind at 1, emit at 1.
  replace (i <? 0) with false by (symmetry; apply Z.ltb_ge; lia).
  rewrite Hb. unfold ret at 1, bind at 1. rewrite printf_d_space.
  unfold bind at 1, int_incr.
  replace (i <? INT_MAX) with true by (symmetry; apply Z.ltb_lt; lia).
  unfold ret at 1. now rewrite <- app_assoc.
Qed.

(** One turn of the loop, when the guard holds and the element is outside
    the storage. *)
Lemma wifi_csi_cb_loop_fault (fuel : nat) (info : wifi_csi_info_t) (i : Z)
    (tr : trace) :
  0 <= i < len info ->
  nth_error (buf info) (Z.to_nat i) = None ->
  wifi_csi_cb_loop (S fuel) info i tr = Fault (tr ++ [E_load i]).
Proof.
  intros Hi Hb. simpl.
  replace (i <? len info) with true by (symmetry; apply Z.ltb_lt; lia).
  unfold bind at 1, load_buf, bind at 1, emit at 1.
  replace (i <? 0) with false by (symmetry; apply Z.ltb_ge; lia).
  now rewrite Hb.
Qed.

(** Leaving the loop. *)
Lemma wifi_csi_cb_loop_exit (fuel : nat) (info : wifi_csi_info_t) (i : Z)
    (tr : trace) :
  len info <= i ->
  wifi_csi_cb_loop (S fuel) info i tr = Ok tt tr.
Proof.
  intros Hi. simpl.
  now replace (i <? len info) with false by (symmetry; apply Z.ltb_ge; lia).
Qed.

Ltac case_holds info :=
  unfold holds_sample;
  destruct (Z.leb_spec (len info) (Z.of_nat (length (buf info)))).

(** The loop, entered at index [length pre] with the bytes [bs] of the
    sample still to come: it prints them all and leaves when the storage
    holds the whole sample, and stops at the first element beyond the
    storage otherwise. *)
Lemma wifi_csi_cb_loop_run (info : wifi_csi_info_t) :
  len info <= INT_MAX ->
  forall (bs pre : list byte) (fuel : nat) (tr : trace),
  firstn (Z.to_nat (len info)) (buf info) = pre ++ bs ->
  (length bs < fuel)%nat ->
  wifi_csi_cb_loop fuel info (Z.of_nat (length pre)) tr =
  if holds_sample info
  then Ok tt (tr ++ loop_effects (Z.of_nat (length pre)) bs)
  else Fault (tr ++ loop_effects (Z.of_nat (length pre)) bs
                 ++ [E_load (Z.of_nat (length (buf info)))]).
Proof.
  intros Hmax. induction bs as [|b bs IH]; intros pre fuel tr Hsplit Hfuel;
    (destruct fuel as [|fuel]; [simpl in Hfuel; lia |]).
  - rewrite app_nil_r in Hsplit.
    assert (Hlen : length pre = Nat.min (Z.to_nat (len info)) (length (buf info)))
      by (rewrite <- Hsplit; apply length_firstn).
    case_holds info; simpl.
    + rewrite app_nil_r. apply wifi_csi_cb_loop_exit. lia.
    + assert (Hpre : length pre = length (buf info)) by lia.
      rewrite Hpre. apply wifi_csi_cb_loop_fault; [lia |].
      rewrite Nat2Z.id. apply nth_error_None. lia.
  - assert (Hlt : (length pre < Z.to_nat (len info))%nat).
    { pose proof (firstn_le_length (Z.to_nat (len info)) (buf info)) as Hle.
      rewrite Hsplit, length_app in Hle. simpl in Hle. lia. }
    assert (Hb : nth_error (buf info) (length pre) = Some b).
    { pose proof (nth_error_firstn (Z.to_nat (len info)) (buf info) (length pre))
        as Hn.
      replace (length pre <? Z.to_nat (len info))%nat with true in Hn
        by (symmetry; apply Nat.ltb_lt; exact Hlt).
      rewrite <- Hn, Hsplit, nth_error_app2, Nat.sub_diag by lia.
      reflexivity. }
    rewrite (wifi_csi_cb_loop_step fuel info _ b);
      [| lia | exact Hmax | now rewrite Nat2Z.id].
    replace (Z.of_nat (length pre) + 1) with (Z.of_nat (length (pre ++ [b])))
      by (rewrite length_app; simpl; lia).
    rewrite (IH (pre ++ [b]) fuel);
      [| now rewrite <- app_assoc | simpl in Hfuel; lia].
    replace (Z.of_nat (length (pre ++ [b]))) with (Z.of_nat (length pre) + 1)
      by (rewrite length_app; simpl; lia).
    case_holds info; simpl; now rewrite <- ?app_assoc.
Qed.

Lemma length_sample_bytes (info : wifi_csi_info_t) :
  (length (firstn (Z.to_nat (len info)) (buf info)) <= Z.to_nat (len info))%nat.
Proof. apply firstn_le_length. Qed.

(** The whole callback, for any sample and any history. *)
Lemma wifi_csi_cb_run (fuel : nat) (ctx : ptr) (info : wifi_csi_info_t)
    (tr : trace) :
  len info <= INT_MAX ->
  (Z.to_nat (len info) < fuel)%nat ->
  wifi_csi_cb fuel ctx info tr =
  if holds_sample info
  then Ok tt (tr ++ E_stdout "CSI_DATA: "
                 :: loop_effects 0 (firstn (Z.to_nat (len info)) (buf info))
                 ++ [E_stdout LF])
  else Fault (tr ++ E_stdout "CSI_DATA: "
                 :: loop_effects 0 (firstn (Z.to_nat (len info)) (buf info))
                 ++ [E_load (Z.of_nat (length (buf info)))]).
Proof.
  intros Hmax Hfuel. unfold wifi_csi_cb, bind.
  change (printf "CSI_DATA: " [] tr) with (Ok tt (tr ++ [E_stdout "CSI_DATA: "])).
  pose proof (length_sample_bytes info) as Hle.
  pose proof (wifi_csi_cb_loop_run info Hmax _ [] fuel
                (tr ++ [E_stdout "CSI_DATA: "]) eq_refl) as Hrun.
  cbn [length Z.of_nat] in Hrun. cbv beta iota. rewrite Hrun by lia.
  case_holds info.
  - change (printf LF [] ?t) with (Ok tt (t ++ [E_stdout LF])).
    now rewrite <- !app_assoc.
  - now rewrite <- !app_assoc.
Qed.

(** ** The printed text *)

Lemma string_app_assoc (a b c : string) :
  String.append (String.append a b) c = String.append a (String.append b c).
Proof. induction a as [|x a IH]; simpl; [reflexivity | now rewrite IH]. Qed.

Lemma string_app_nil_r (a : string) : String.append a EmptyString = a.
Proof. induction a as [|x a IH]; simpl; [reflexivity | now rewrite IH]. Qed.

Lemma stdout_of_loop_effects (bs : list byte) :
  forall i, stdout_of (loop_effects i bs) = csi_body (map int8_of_byte bs).
Proof.
  induction bs as [|b bs IH]; intros i; simpl; [reflexivity |].
  now rewrite IH, string_app_assoc.
Qed.

Lemma loads_of_loop_effects (bs : list byte) :
  forall i, loads_of (loop_effects i bs) = Zseq i (length bs).
Proof.
  induction bs as [|b bs IH]; intros i; simpl; [reflexivity |].
  now rewrite IH.
Qed.

Lemma Zseq_range (n : nat) :
  forall i, Forall (fun j => i <= j < i + Z.of_nat n) (Zseq i n).
Proof.
  induction n as [|n IH]; intros i; simpl; constructor; [lia |].
  eapply Forall_impl; [| apply IH]. simpl. intros j Hj. lia.
Qed.

(** ** Decimal tokens *)

Lemma token_chars_uint (d : uint) :
  all_chars token_char (NilEmpty.string_of_uint d).
Proof.
  induction d; simpl; try exact I; (split; [split; discriminate | assumption]).
Qed.

Lemma decimal_token_chars (v : Z) : all_chars token_char (decimal v).
Proof.
  unfold decimal. destruct (Z.to_int v) as [d | d]; simpl.
  - destruct d; try apply (token_chars_uint (_ _));
      simpl; repeat split; discriminate.
  - split; [split; discriminate |].
    destruct d; try apply (token_chars_uint (_ _));
      simpl; repeat split; discriminate.
Qed.

Lemma decimal_nonempty (v : Z) : decimal v <> EmptyString.
Proof.
  unfold decimal. destruct (Z.to_int v) as [d | d]; simpl;
    [destruct d; discriminate | discriminate].
Qed.

Lemma tokens_from_token (t : string) :
  forall (acc rest : string),
  all_chars token_char t ->
  tokens_from acc (String.append t (String " "%char rest)) =
  match String.append acc t with
  | EmptyString => tokens_from EmptyString rest
  | String _ _ => String.append acc t :: tokens_from EmptyString rest
  end.
Proof.
  induction t as [|c t IH]; intros acc rest Hok; simpl.
  - rewrite string_app_nil_r. reflexivity.
  - destruct Hok as [[Hsp _] Hok].
    replace (Ascii.eqb c " "%char) with false
      by (symmetry; apply Ascii.eqb_neq; exact Hsp).
    rewrite IH by exact Hok. rewrite string_app_assoc. reflexivity.
Qed.

Lemma tokens_csi_body (values : list Z) :
  tokens (csi_body values) = map decimal values.
Proof.
  unfold tokens. induction values as [|v values IH]; simpl; [reflexivity |].
  rewrite tokens_from_token by apply decimal_token_chars. simpl.
  destruct (decimal v) eqn:Hd; [now apply decimal_nonempty in Hd |].
  now rewrite IH.
Qed.

Lemma no_newline_in_body (values : list Z) :
  all_chars (fun c => c <> "010"%char)
            (String.append "CSI_DATA: " (csi_body values)).
Proof.
  simpl. repeat (split; [discriminate |]).
  induction values as [|v values IH]; simpl; [exact I |].
  pose proof (decimal_token_chars v) as Hv.
  induction (decimal v) as [|c t IHt]; simpl.
  - split; [discriminate | exact IH].
  - destruct Hv as [[_ Hc] Hv]. split; [exact Hc | now apply IHt].
Qed.

Lemma int8_of_byte_range (b : byte) : -128 <= int8_of_byte b <= 127.
Proof. destruct b; vm_compute; split; discriminate. Qed.

Lemma length_sample_values (info : wifi_csi_info_t) :
  len info <= Z.of_nat (length (buf info)) ->
  length (sample_values info) = Z.to_nat (len info).
Proof.
  intros Hwf. unfold sample_values.
  rewrite length_map, length_firstn. lia.
Qed.

(** ** Claims about the CSI callback *)

(** C1 (amended).  For every CSI sample whose [len] elements are held by
    its buffer ([len] in the range of [int]; a [len] below zero counts as
    no element), the callback returns and the text it has written is the
    label ["CSI_DATA: "], then one decimal token per signed byte of the
    sample, in order, each token followed by a single space, then a single
    newline: consecutive tokens are separated by single spaces, one more
    space follows the last token, the tokens of the line's body are exactly
    the [len] decimals, and no newline occurs before the final one. *)
Theorem wifi_csi_cb_emits_line (fuel : nat) (ctx : ptr)
    (info : wifi_csi_info_t) (tr : trace) :
  len info <= Z.of_nat (length (buf info)) ->
  len info <= INT_MAX ->
  (Z.to_nat (len info) < fuel)%nat ->
  exists eff,
    wifi_csi_cb fuel ctx info tr = Ok tt (tr ++ eff) /\
    stdout_of eff = csi_line (sample_values info) /\
    length (sample_values info) = Z.to_nat (len info) /\
    tokens (csi_body (sample_values info)) = map decimal (sample_values info) /\
    all_chars (fun c => c <> "010"%char)
              (String.append "CSI_DATA: " (csi_body (sample_values info))).
Proof.
  intros Hwf Hmax Hfuel.
  rewrite (wifi_csi_cb_run fuel ctx info tr Hmax Hfuel).
  case_holds info; [| lia].
  eexists. split; [reflexivity |]. split; [| split; [| split]].
  - cbn [stdout_of]. rewrite stdout_of_app, stdout_of_loop_effects.
    cbn [stdout_of]. rewrite string_app_nil_r. reflexivity.
  - now apply length_sample_values.
  - apply tokens_csi_body.
  - apply no_newline_in_body.
Qed.

(** C6.  For a CSI sample of length 0 the callback writes the label
    immediately followed by a newline, and nothing else. *)
Theorem wifi_csi_cb_empty_sample (fuel : nat) (ctx : ptr)
    (info : wifi_csi_info_t) (tr : trace) :
  len info = 0 ->
  (0 < fuel)%nat ->
  wifi_csi_cb fuel ctx info tr =
    Ok tt (tr ++ [E_stdout "CSI_DATA: "; E_stdout LF]) /\
  stdout_of [E_stdout "CSI_DATA: "; E_stdout LF] =
    String.append "CSI_DATA: " LF.
Proof.
  intros Hlen Hfuel. split; [| reflexivity].
  rewrite (wifi_csi_cb_run fuel ctx info tr)
    by (rewrite Hlen; unfold INT_MAX; simpl; lia).
  case_holds info; [| lia].
  now rewrite Hlen.
Qed.

(** C9.  Whatever sample it is handed (with [len] in the range of [int]),
    the callback terminates and reads [info->buf] only at indices from 0 to
    [len - 1].  When the buffer holds the [len] elements, these reads are
    exactly the indices 0, 1, ..., [len - 1], each inside the buffer, and
    the callback returns.  When [len <= 0] it reads nothing and writes
    only the bare label line. *)
Theorem wifi_csi_cb_reads_in_bounds (fuel : nat) (ctx : ptr)
    (info : wifi_csi_info_t) (tr : trace) :
  len info <= INT_MAX ->
  (Z.to_nat (len info) < fuel)%nat ->
  exists eff,
    wifi_csi_cb fuel ctx info tr <> OutOfFuel /\
    trace_of (wifi_csi_cb fuel ctx info tr) = tr ++ eff /\
    Forall (fun j => 0 <= j < len info) (loads_of eff) /\
    (len info <= Z.of_nat (length (buf info)) ->
       wifi_csi_cb fuel ctx info tr = Ok tt (tr ++ eff) /\
       loads_of eff = Zseq 0 (Z.to_nat (len info)) /\
       Forall (fun j => 0 <= j < Z.of_nat (length (buf info)))
              (loads_of eff)) /\
    (len info <= 0 ->
       wifi_csi_cb fuel ctx info tr = Ok tt (tr ++ eff) /\
       eff = [E_stdout "CSI_DATA: "; E_stdout LF]).
Proof.
  intros Hmax Hfuel. rewrite (wifi_csi_cb_run fuel ctx info tr Hmax Hfuel).
  pose proof (length_firstn (Z.to_nat (len info)) (buf info)) as Hn.
  pose proof (Zseq_range
                (length (firstn (Z.to_nat (len info)) (buf info))) 0) as Hseq.
  case_holds info;
    eexists; (split; [discriminate |]); (split; [reflexivity |]);
    cbn [loads_of]; rewrite loads_of_app, loads_of_loop_effects;
    cbn [loads_of]; rewrite ?app_nil_r.
  - split; [| split].
    + eapply Forall_impl; [| exact Hseq]. simpl. intros j Hj. lia.
    + intros _. split; [reflexivity |]. split.
      * f_equal. lia.
      * eapply Forall_impl; [| exact Hseq]. simpl. intros j Hj. lia.
    + intros Hle. split; [reflexivity |].
      replace (Z.to_nat (len info)) with O by lia. reflexivity.
  - split; [| split].
    + apply Forall_app. split.
      * eapply Forall_impl; [| exact Hseq]. simpl. intros j Hj. lia.
      * constructor; [lia | constructor].
    + intros Hwf. lia.
    + intros Hle. lia.
Qed.

(** C10.  What the callback emits is a function of [len] and of the first
    [len] bytes of the buffer alone: two invocations on samples that agree
    on these ([len] in the range of [int]) have the same outcome relative
    to their histories, and so write the same line, whatever [ctx] is and
    whatever happened before. *)
Theorem wifi_csi_cb_deterministic (fuel1 fuel2 : nat) (ctx1 ctx2 : ptr)
    (info1 info2 : wifi_csi_info_t) (tr1 tr2 : trace) :
  len info1 = len info2 ->
  firstn (Z.to_nat (len info1)) (buf info1) =
    firstn (Z.to_nat (len info2)) (buf info2) ->
  len info1 <= INT_MAX ->
  (Z.to_nat (len info1) < fuel1)%nat ->
  (Z.to_nat (len info2) < fuel2)%nat ->
  exists o : outcome unit,
    o <> OutOfFuel /\
    wifi_csi_cb fuel1 ctx1 info1 tr1 = prepend tr1 o /\
    wifi_csi_cb fuel2 ctx2 info2 tr2 = prepend tr2 o /\
    stdout_of (trace_of (wifi_csi_cb fuel1 ctx1 info1 [])) =
      stdout_of (trace_of (wifi_csi_cb fuel2 ctx2 info2 [])).
Proof.
  intros Hlen Hbuf Hmax1 Hf1 Hf2.
  assert (Hmax2 : len info2 <= INT_MAX) by (rewrite <- Hlen; exact Hmax1).
  assert (Hsame : wifi_csi_cb fuel1 ctx1 info1 [] =
                  wifi_csi_cb fuel2 ctx2 info2 []).
  { rewrite (wifi_csi_cb_run fuel1 ctx1 info1 [] Hmax1 Hf1),
            (wifi_csi_cb_run fuel2 ctx2 info2 [] Hmax2 Hf2).
    pose proof (f_equal (@length byte) Hbuf) as Hn.
    rewrite !length_firstn in Hn. rewrite <- Hbuf.
    case_holds info1; case_holds info2; try lia; try reflexivity.
    replace (length (buf info2)) with (length (buf info1)) by lia.
    reflexivity. }
  exists (wifi_csi_cb fuel1 ctx1 info1 []). repeat split.
  - rewrite (wifi_csi_cb_run fuel1 ctx1 info1 [] Hmax1 Hf1).
    case_holds info1; discriminate.
  - apply framed_wifi_csi_cb.
  - rewrite Hsame. apply framed_wifi_csi_cb.
  - now rewrite Hsame.
Qed.

(* ------------------------------------------------------------------ *)
(** * More on the CSI callback *)

Lemma wifi_csi_cb_delivered (fuel : nat) (ctx : ptr)
    (info : wifi_csi_info_t) (tr : trace) :
  delivered info ->
  (Z.to_nat (len info) < fuel)%nat ->
  wifi_csi_cb fuel ctx info tr = Ok tt (tr ++ line_effects info).
Proof.
  intros [Hwf Hmax] Hfuel.
  rewrite (wifi_csi_cb_run fuel ctx info tr Hmax Hfuel).
  case_holds info; [reflexivity | lia].
Qed.

Lemma stdout_of_line_effects (info : wifi_csi_info_t) :
  stdout_of (line_effects info) = csi_line (sample_values info).
Proof.
  unfold line_effects. cbn [stdout_of].
  rewrite stdout_of_app, stdout_of_loop_effects.
  cbn [stdout_of]. now rewrite string_app_nil_r.
Qed.

(** ** The line determines the sample *)

Lemma decimal_inj (a b : Z) : decimal a = decimal b -> a = b.
Proof.
  unfold decimal. intros H.
  assert (Hn : forall z, Z.to_int z <> Pos Nil /\ Z.to_int z <> Neg Nil).
  { intros [|p|p]; simpl; split; try discriminate;
      intros [= Hp]; now apply DecimalPos.Unsigned.to_uint_nonnil in Hp. }
  apply (f_equal NilZero.int_of_string) in H.
  rewrite !NilZero.isi in H by apply Hn.
  injection H as H. now apply DecimalZ.to_int_inj.
Qed.

Lemma int8_of_byte_mod (b : byte) :
  Z.of_N (Byte.to_N b) = int8_of_byte b mod 256.
Proof. destruct b; reflexivity. Qed.

Lemma int8_of_byte_inj (a b : byte) :
  int8_of_byte a = int8_of_byte b -> a = b.
Proof.
  intros H.
  assert (Hn : Byte.to_N a = Byte.to_N b)
    by (apply N2Z.inj; now rewrite !int8_of_byte_mod, H).
  pose proof (Byte.of_to_N a) as Ha. rewrite Hn, Byte.of_to_N in Ha.
  now injection Ha.
Qed.

Lemma map_injective {A B : Type} (f : A -> B) :
  (forall x y, f x = f y -> x = y) ->
  forall l l', map f l = map f l' -> l = l'.
Proof.
  intros Hf. induction l as [|x l IH]; intros [|y l'] H;
    try discriminate; [reflexivity |].
  injection H as Hx Hl. f_equal; [now apply Hf | now apply IH].
Qed.

Lemma tokens_from_csi_body (values : list Z) (rest : string) :
  tokens_from EmptyString (String.append (csi_body values) rest) =
  map decimal values ++ tokens_from EmptyString rest.
Proof.
  induction values as [|v values IH]; simpl; [reflexivity |].
  rewrite string_app_assoc. cbn [String.append].
  rewrite tokens_from_token by apply decimal_token_chars. simpl.
  destruct (decimal v) eqn:Hd; [now apply decimal_nonempty in Hd |].
  now rewrite IH.
Qed.

Lemma csi_line_inj (v1 v2 : list Z) : csi_line v1 = csi_line v2 -> v1 = v2.
Proof.
  unfold csi_line. simpl. intros H. injection H as H.
  apply (f_equal (tokens_from EmptyString)) in H.
  rewrite !tokens_from_csi_body in H.
  apply app_inv_tail in H. revert H. apply map_injective, decimal_inj.
Qed.

(** X1.  The text written for a delivered sample determines it: two samples for
    which the callback writes the same line have the same values, that
    is the same number of elements and the same bytes in the part of the
    buffer the length covers. *)
Theorem wifi_csi_cb_line_determines_sample (fuel1 fuel2 : nat)
    (ctx1 ctx2 : ptr) (info1 info2 : wifi_csi_info_t) :
  delivered info1 -> delivered info2 ->
  (Z.to_nat (len info1) < fuel1)%nat ->
  (Z.to_nat (len info2) < fuel2)%nat ->
  stdout_of (trace_of (wifi_csi_cb fuel1 ctx1 info1 [])) =
    stdout_of (trace_of (wifi_csi_cb fuel2 ctx2 info2 [])) ->
  sample_values info1 = sample_values info2 /\
  Z.to_nat (len info1) = Z.to_nat (len info2) /\
  firstn (Z.to_nat (len info1)) (buf info1) =
    firstn (Z.to_nat (len info2)) (buf info2).
Proof.
  intros Hd1 Hd2 Hf1 Hf2.
  rewrite (wifi_csi_cb_delivered fuel1 ctx1 info1 [] Hd1 Hf1),
          (wifi_csi_cb_delivered fuel2 ctx2 info2 [] Hd2 Hf2).
  cbn [trace_of]. rewrite !app_nil_l, !stdout_of_line_effects.
  intros Hline. apply csi_line_inj in Hline.
  split; [exact Hline |].
  assert (Hbytes : firstn (Z.to_nat (len info1)) (buf info1) =
                   firstn (Z.to_nat (len info2)) (buf info2))
    by (revert Hline; apply map_injective, int8_of_byte_inj).
  split; [| exact Hbytes].
  apply (f_equal (@length byte)) in Hbytes.
  rewrite !length_firstn in Hbytes.
  destruct Hd1 as [Hw1 _], Hd2 as [Hw2 _]. lia.
Qed.

(** ** The size of a line *)

Lemma string_length_app (a b : string) :
  String.length (String.append a b) = (String.length a + String.length b)%nat.
Proof. induction a as [|c a IH]; simpl; [reflexivity | now rewrite IH]. Qed.

Lemma decimal_int8_length (b : byte) :
  (1 <= String.length (decimal (int8_of_byte b)) <= 4)%nat.
Proof. destruct b; cbv; lia. Qed.

Lemma csi_body_length (bs : list byte) :
  (2 * length bs <= String.length (csi_body (map int8_of_byte bs))
   <= 5 * length bs)%nat.
Proof.
  induction bs as [|b bs IH]; simpl; [lia |].
  rewrite string_length_app. simpl.
  pose proof (decimal_int8_length b). lia.
Qed.

(** X2.  The line written for a delivered sample of [n] elements has between
    [11 + 2 n] and [11 + 5 n] characters, the line feed included: every
    element takes one to four characters and a space. *)
Theorem wifi_csi_cb_line_length (fuel : nat) (ctx : ptr)
    (info : wifi_csi_info_t) (tr : trace) :
  delivered info ->
  (Z.to_nat (len info) < fuel)%nat ->
  exists eff,
    wifi_csi_cb fuel ctx info tr = Ok tt (tr ++ eff) /\
    (11 + 2 * Z.to_nat (len info) <= String.length (stdout_of eff)
     <= 11 + 5 * Z.to_nat (len info))%nat.
Proof.
  intros Hd Hfuel. exists (line_effects info).
  split; [now apply wifi_csi_cb_delivered |].
  rewrite stdout_of_line_effects. unfold csi_line, sample_values.
  rewrite !string_length_app.
  pose proof (csi_body_length (firstn (Z.to_nat (len info)) (buf info))) as Hb.
  rewrite length_firstn in Hb. destruct Hd as [Hwf _].
  replace (Nat.min (Z.to_nat (len info)) (length (buf info)))
    with (Z.to_nat (len info)) in Hb by lia.
  simpl String.length. lia.
Qed.

(** ** A length beyond the buffer *)


(** ** Nothing but reads and writes *)

Lemma length_Zseq (n : nat) : forall i, length (Zseq i n) = n.
Proof. induction n as [|n IH]; intros i; simpl; [reflexivity | now rewrite IH]. Qed.

Lemma printf_calls_app (t1 t2 : trace) :
  printf_calls (t1 ++ t2) = (printf_calls t1 + printf_calls t2)%nat.
Proof.
  induction t1 as [|e t1 IH]; simpl; [reflexivity |].
  destruct e; simpl; now rewrite ?IH.
Qed.

Lemma loop_effects_local (bs : list byte) :
  forall i,
  forallb is_stdout_or_load (loop_effects i bs) = true /\
  printf_calls (loop_effects i bs) = length bs.
Proof.
  induction bs as [|b bs IH]; intros i; simpl; [split; reflexivity |].
  destruct (IH (i + 1)) as [H1 H2]. split; [exact H1 | now rewrite H2].
Qed.

(** X4.  Whatever sample it is handed, the callback makes no call into the
    WiFi stack and writes no log entry: all it does is read the buffer
    and call [printf].  For a delivered sample of [n] elements it calls
    [printf] [n + 2] times and reads [n] elements. *)
Theorem wifi_csi_cb_only_reads_and_prints (fuel : nat) (ctx : ptr)
    (info : wifi_csi_info_t) (tr : trace) :
  len info <= INT_MAX ->
  (Z.to_nat (len info) < fuel)%nat ->
  exists eff,
    trace_of (wifi_csi_cb fuel ctx info tr) = tr ++ eff /\
    forallb is_stdout_or_load eff = true /\
    connects_of eff = 0%nat /\
    logs_of eff = [] /\
    (len info <= Z.of_nat (length (buf info)) ->
       printf_calls eff = (Z.to_nat (len info) + 2)%nat /\
       length (loads_of eff) = Z.to_nat (len info)).
Proof.
  intros Hmax Hfuel. rewrite (wifi_csi_cb_run fuel ctx info tr Hmax Hfuel).
  pose proof (loop_effects_local
                (firstn (Z.to_nat (len info)) (buf info)) 0) as [Hlocal Hcalls].
  assert (Hloop : forall bs i,
             connects_of (loop_effects i bs) = 0%nat /\
             logs_of (loop_effects i bs) = [])
    by (induction bs as [|b bs IH]; intros i; simpl;
        [split; reflexivity | apply IH]).
  destruct (Hloop (firstn (Z.to_nat (len info)) (buf info)) 0) as [Hc Hl].
  pose proof (length_firstn (Z.to_nat (len info)) (buf info)) as Hn.
  case_holds info; eexists; (split; [reflexivity |]);
    cbn [forallb is_stdout_or_load connects_of logs_of printf_calls loads_of
         andb];
    rewrite forallb_app, connects_of_app, logs_of_app, printf_calls_app,
            loads_of_app, loads_of_loop_effects, Hlocal, Hc, Hl, Hcalls;
    (split; [reflexivity |]); (split; [reflexivity |]);
    (split; [reflexivity |]); intros Hwf; simpl; rewrite ?app_nil_r;
    try lia.
  rewrite length_Zseq. lia.
Qed.

(** ** One line per sample *)

Lemma lines_from_line (l : string) :
  forall (acc rest : string),
  all_chars (fun c => c <> "010"%char) l ->
  lines_from acc (String.append l (String "010"%char rest)) =
  String.append acc l :: lines_from EmptyString rest.
Proof.
  induction l as [|c l IH]; intros acc rest Hok; simpl.
  - now rewrite string_app_nil_r.
  - destruct Hok as [Hc Hok].
    replace (Ascii.eqb c "010"%char) with false
      by (symmetry; apply Ascii.eqb_neq; exact Hc).
    rewrite IH by exact Hok. now rewrite string_app_assoc.
Qed.

Lemma line_then_text (a b t : string) :
  String.append (String.append a (String.append b LF)) t =
  String.append (String.append a b) (String "010"%char t).
Proof. rewrite <- string_app_assoc, string_app_assoc. reflexivity. Qed.

Lemma csi_line_then_text (values : list Z) (t : string) :
  String.append (csi_line values) t =
  String.append (String.append "CSI_DATA: " (csi_body values))
                (String "010"%char t).
Proof. exact (line_then_text "CSI_DATA: " (csi_body values) t). Qed.

Lemma lines_csi_text (infos : list wifi_csi_info_t) :
  lines (csi_text infos) =
  map (fun info =>
         String.append "CSI_DATA: " (csi_body (sample_values info))) infos.
Proof.
  unfold lines. induction infos as [|info infos IH]; [reflexivity |].
  cbn [csi_text map]. rewrite csi_line_then_text.
  rewrite lines_from_line by apply no_newline_in_body.
  now rewrite IH.
Qed.

(** X5.  Delivered one after the other, the samples give one line each: the
    text written is the lines of the samples in the order of delivery,
    and cutting it at the line feeds gives back, sample by sample, the
    label and the tokens of that sample, none merged and none split. *)
Theorem deliver_samples_one_line_each (fuel : nat) (ctx : ptr)
    (infos : list wifi_csi_info_t) (tr : trace) :
  Forall (fun info => delivered info /\ (Z.to_nat (len info) < fuel)%nat)
         infos ->
  exists eff,
    deliver_samples fuel ctx infos tr = Ok tt (tr ++ eff) /\
    stdout_of eff = csi_text infos /\
    lines (stdout_of eff) =
      map (fun info =>
             String.append "CSI_DATA: " (csi_body (sample_values info)))
          infos.
Proof.
  intros Hall.
  assert (Hrun : exists eff,
             deliver_samples fuel ctx infos tr = Ok tt (tr ++ eff) /\
             stdout_of eff = csi_text infos).
  { revert tr. induction Hall as [|info infos [Hd Hfuel] _ IH]; intros tr.
    - exists []. simpl. now rewrite app_nil_r.
    - destruct (IH (tr ++ line_effects info)) as (eff & Hrest & Hout).
      exists (line_effects info ++ eff). split.
      + cbn [deliver_samples]. unfold bind.
        rewrite (wifi_csi_cb_delivered fuel ctx info tr Hd Hfuel), Hrest.
        now rewrite <- app_assoc.
      + rewrite stdout_of_app, stdout_of_line_effects, Hout. reflexivity. }
  destruct Hrun as (eff & Hrun & Hout). exists eff.
  split; [exact Hrun |]. split; [exact Hout |].
  rewrite Hout. apply lines_csi_text.
Qed.

(* ------------------------------------------------------------------ *)
(** * The order test *)

Lemma step_eqb_eq (a b : step) : step_eqb a b = true <-> a = b.
Proof. destruct a, b; simpl; split; congruence. Qed.

Lemma in_order_sound (ys : list step) :
  forall xs, in_order xs ys = true -> occurs_in_order xs ys.
Proof.
  induction ys as [|y ys IH]; intros xs H.
  - destruct xs; [constructor | discriminate H].
  - destruct xs as [|x xs]; [constructor |]. simpl in H.
    destruct (step_eqb x y) eqn:Hxy.
    + apply step_eqb_eq in Hxy. subst y. constructor. now apply IH.
    + constructor. now apply IH.
Qed.

Lemma in_order_tail (ys : list step) :
  forall x xs, in_order (x :: xs) ys = true -> in_order xs ys = true.
Proof.
  induction ys as [|y ys IH]; intros x xs H; simpl in H; [discriminate |].
  destruct (step_eqb x y).
  - destruct xs as [|x' xs]; [reflexivity |]. simpl.
    destruct (step_eqb x' y); [now apply (IH x') | exact H].
  - destruct xs as [|x' xs]; [reflexivity |]. simpl.
    destruct (step_eqb x' y); [| now apply (IH x)].
    apply (IH x'). now apply (IH x).
Qed.

Lemma in_order_complete (xs ys : list step) :
  occurs_in_order xs ys -> in_order xs ys = true.
Proof.
  induction 1 as [ys | x xs ys _ IH | xs y ys _ IH].
  - destruct ys; reflexivity.
  - simpl. replace (step_eqb x x) with true
      by (symmetry; now apply step_eqb_eq). exact IH.
  - destruct xs as [|x xs]; [reflexivity |]. simpl.
    destruct (step_eqb x y); [now apply (in_order_tail ys x) | exact IH].
Qed.

(* ------------------------------------------------------------------ *)
(** * The event handler *)

Ltac eqb_cases :=
  repeat match goal with
         | |- context [Z.eqb ?a ?b] => destruct (Z.eqb_spec a b)
         end;
  cbn [andb].

Lemma framed_wifi_event_handler (arg : ptr) (event_base : esp_event_base_t)
    (event_id : Z) (event_data : ptr) :
  framed (wifi_event_handler arg event_base event_id event_data).
Proof.
  unfold wifi_event_handler, esp_wifi_connect, ESP_LOGI.
  repeat match goal with
         | |- framed (if ?c then _ else _) => destruct c
         | |- framed (bind _ _) => apply framed_bind; [| intros _]
         end; auto with framed.
Qed.

(** The handler issues one connect request for a station-started or a
    station-disconnected event, whichever branch takes it. *)
Lemma wifi_event_handler_connects_once (arg : ptr) (ev : esp_event) :
  is_sta_start ev \/ is_sta_disconnected ev ->
  exists eff,
    wifi_event_handler arg (fst (fst ev)) (snd (fst ev)) (snd ev) [] =
      Ok tt eff /\
    connects_of eff = 1%nat.
Proof.
  destruct ev as [[event_base event_id] event_data]. simpl.
  unfold is_sta_start, is_sta_disconnected, wifi_event_handler. simpl.
  intros [[-> ->] | [-> ->]]; eqb_cases; try congruence;
    eexists; (split; [reflexivity |]); reflexivity.
Qed.

(** C2.  For every finite sequence of station-started and
    station-disconnected events delivered to the handler, the trace grows
    by one slice per event, in order, each slice being what the handler
    emits for that event and holding exactly one connect request; no other
    effect lies between the slices, and the connect requests number as
    many as the events. *)
Theorem deliver_events_one_connect_each (arg : ptr) (evs : list esp_event)
    (tr : trace) :
  Forall (fun ev => is_sta_start ev \/ is_sta_disconnected ev) evs ->
  exists slices : list trace,
    deliver_events arg evs tr = Ok tt (tr ++ concat slices) /\
    Forall2 (fun ev slice =>
               wifi_event_handler arg (fst (fst ev)) (snd (fst ev)) (snd ev) []
                 = Ok tt slice /\
               connects_of slice = 1%nat) evs slices /\
    connects_of (concat slices) = length evs.
Proof.
  intros Hevs. revert tr.
  induction Hevs as [|ev evs Hev _ IH]; intros tr.
  - exists []. simpl. rewrite app_nil_r. repeat split. constructor.
  - destruct (wifi_event_handler_connects_once arg ev Hev) as (sl & Hrun & Hone).
    destruct (IH (tr ++ sl)) as (sls & Hrest & Hall & Hcount).
    exists (sl :: sls). split; [| split].
    + destruct ev as [[event_base event_id] event_data].
      cbn [deliver_events]. unfold bind.
      rewrite (framed_wifi_event_handler arg event_base event_id event_data tr).
      simpl in Hrun. rewrite Hrun. cbn [prepend]. rewrite Hrest.
      simpl. now rewrite <- app_assoc.
    + constructor; [split; assumption | exact Hall].
    + simpl. rewrite connects_of_app, Hone, Hcount. reflexivity.
Qed.

(** Connect requests come from the handler alone: neither the CSI
    callback nor the initialisation issues one. *)
Lemma wifi_csi_cb_no_connect (fuel : nat) (ctx : ptr)
    (info : wifi_csi_info_t) :
  len info <= INT_MAX ->
  (Z.to_nat (len info) < fuel)%nat ->
  connects_of (trace_of (wifi_csi_cb fuel ctx info [])) = 0%nat.
Proof.
  intros Hmax Hfuel. rewrite (wifi_csi_cb_run fuel ctx info [] Hmax Hfuel).
  assert (Hloop : forall bs i, connects_of (loop_effects i bs) = 0%nat)
    by (induction bs as [|b bs IH]; intros i; simpl; [reflexivity | apply IH]).
  case_holds info; cbn [trace_of]; rewrite app_nil_l; cbn [connects_of];
    rewrite connects_of_app, Hloop; reflexivity.
Qed.

Lemma wifi_init_no_connect :
  connects_of (trace_of (wifi_init [])) = 0%nat.
Proof. reflexivity. Qed.

(** C7.  For every event that is none of station-started,
    station-disconnected and address-assigned, the handler returns with the
    trace as it found it: no connect request, no log entry, nothing. *)
Theorem wifi_event_handler_ignores_others (arg : ptr)
    (event_base : esp_event_base_t) (event_id : Z) (event_data : ptr)
    (tr : trace) :
  ~ (is_sta_start (event_base, event_id, event_data) \/
     is_sta_disconnected (event_base, event_id, event_data) \/
     is_got_ip (event_base, event_id, event_data)) ->
  wifi_event_handler arg event_base event_id event_data tr = Ok tt tr.
Proof.
  unfold is_sta_start, is_sta_disconnected, is_got_ip. simpl. intros Hother.
  unfold wifi_event_handler. eqb_cases; try reflexivity; tauto.
Qed.

(** The two station events are distinct members of one [enum]. *)
Hypothesis sta_ids_distinct :
  WIFI_EVENT_STA_START <> WIFI_EVENT_STA_DISCONNECTED.

(** C4.  On a station-disconnected event the handler issues exactly one
    connect request and emits exactly one diagnostic log entry, whatever
    the history: no condition, counter or delay stands before the request. *)
Theorem wifi_event_handler_disconnected (arg event_data : ptr) (tr : trace) :
  wifi_event_handler arg WIFI_EVENT WIFI_EVENT_STA_DISCONNECTED event_data tr =
    Ok tt (tr ++ [E_esp_wifi_connect;
                  E_ESP_LOGI TAG "Retrying WiFi connection..."]) /\
  connects_of [E_esp_wifi_connect;
               E_ESP_LOGI TAG "Retrying WiFi connection..."] = 1%nat /\
  length (logs_of [E_esp_wifi_connect;
                   E_ESP_LOGI TAG "Retrying WiFi connection..."]) = 1%nat.
Proof.
  split; [| split; reflexivity].
  unfold wifi_event_handler. eqb_cases; try congruence;
    unfold bind, esp_wifi_connect, ESP_LOGI, emit;
    now rewrite <- app_assoc.
Qed.

(** The two event bases are distinct objects. *)
Hypothesis bases_distinct : WIFI_EVENT <> IP_EVENT.

(** C5.  On an address-assigned event of the IP layer the handler emits
    exactly one diagnostic log entry and issues no connect request. *)
Theorem wifi_event_handler_got_ip (arg event_data : ptr) (tr : trace) :
  wifi_event_handler arg IP_EVENT IP_EVENT_STA_GOT_IP event_data tr =
    Ok tt (tr ++ [E_ESP_LOGI TAG
                    "WiFi connected. CSI should start appearing."]) /\
  connects_of [E_ESP_LOGI TAG
                 "WiFi connected. CSI should start appearing."] = 0%nat /\
  length (logs_of [E_ESP_LOGI TAG
                     "WiFi connected. CSI should start appearing."]) = 1%nat.
Proof.
  clear sta_ids_distinct. split; [| split; reflexivity].
  unfold wifi_event_handler. eqb_cases; try congruence; reflexivity.
Qed.

(* ------------------------------------------------------------------ *)
(** * Initialisation *)

Ltac framed_calls :=
  repeat (apply framed_bind; [| intros _]);
  try apply framed_emit; auto with framed.

Lemma framed_wifi_init : framed wifi_init.
Proof. unfold wifi_init. framed_calls. Qed.

Lemma framed_csi_register (config : wifi_csi_config_t) (cb : wifi_csi_cb_t)
    (ctx : ptr) : framed (csi_register config cb ctx).
Proof. unfold csi_register. framed_calls. Qed.

(** C3 (amended).  [wifi_init] performs, in this order: set-up of the
    network-interface runtime, creation of the default event loop, creation
    of the default station interface, initialisation of the radio with the
    default tuning parameters, subscription of the one handler to the
    link-layer events and to the address-assigned event, selection of the
    station operating mode, application of the Connection Configuration
    (network identifier, secret, minimum authentication strength), start of
    the radio; after that it installs the capture configuration, registers
    the CSI callback, enables capture and logs one entry. *)
Theorem wifi_init_order (tr : trace) :
  wifi_init tr =
    Ok tt (tr ++
      [ E_esp_netif_init;
        E_esp_event_loop_create_default;
        E_esp_netif_create_default_wifi_sta;
        E_esp_wifi_init WIFI_INIT_CONFIG_DEFAULT;
        E_esp_event_handler_instance_register
          WIFI_EVENT ESP_EVENT_ANY_ID addr_wifi_event_handler NULL NULL;
        E_esp_event_handler_instance_register
          IP_EVENT IP_EVENT_STA_GOT_IP addr_wifi_event_handler NULL NULL;
        E_esp_wifi_set_mode WIFI_MODE_STA;
        E_esp_wifi_set_config WIFI_IF_STA
          {| sta_ssid := "Connecting...";
             sta_password := "Error501";
             sta_threshold_authmode := WIFI_AUTH_WPA2_PSK |};
        E_esp_wifi_start;
        E_esp_wifi_set_csi_config csi_config;
        E_esp_wifi_set_csi_rx_cb addr_wifi_csi_cb NULL;
        E_esp_wifi_set_csi true;
        E_ESP_LOGI "CSI" "CSI initialized" ]) /\
  steps_of (trace_of (wifi_init [])) =
    [ initialize_network_runtime; create_default_event_loop;
      create_default_station_interface; initialize_radio;
      subscribe; subscribe; set_mode; apply_config; start;
      set_capture_config; register_capture_callback; set_capture_enabled ].
Proof.
  split; [| reflexivity].
  rewrite (framed_wifi_init tr). reflexivity.
Qed.

(** The capture registration of [wifi_init] is [csi_register] at the
    firmware's own arguments, followed by the closing log entry. *)
Lemma wifi_init_registers_capture :
  exists before registration,
    wifi_init [] =
      Ok tt (before ++ registration ++ [E_ESP_LOGI TAG "CSI initialized"]) /\
    csi_register csi_config addr_wifi_csi_cb NULL [] = Ok tt registration.
Proof.
  eexists (firstn 9 (trace_of (wifi_init []))), _.
  split; [| reflexivity]. reflexivity.
Qed.

(* ------------------------------------------------------------------ *)
(** * Capture registration *)

Lemma radio_after_app (r : radio) (t1 t2 : trace) :
  radio_after r (t1 ++ t2) = radio_after (radio_after r t1) t2.
Proof. apply fold_left_app. Qed.

(** C8.  Against the radio of the specification, running the capture
    registration (install the configuration, register the callback,
    enable capture) twice with the same arguments leaves the radio in the
    state one run leaves it in; every sample delivered afterwards goes to
    the registered callback with the registered context, so any sequence
    of samples produces the same outcome, from any history, after two
    registrations as after one. *)
Theorem csi_register_idempotent (config : wifi_csi_config_t)
    (cb : wifi_csi_cb_t) (ctx : ptr) (r : radio) (fuel : nat)
    (samples : list wifi_csi_info_t) (tr : trace) :
  exists once twice : trace,
    csi_register config cb ctx [] = Ok tt once /\
    (csi_register config cb ctx ;; csi_register config cb ctx) [] =
      Ok tt twice /\
    twice = once ++ once /\
    radio_after r twice = radio_after r once /\
    (forall info,
       radio_deliver (radio_after r once) fuel info =
       call_csi_cb cb fuel ctx info) /\
    radio_deliver_all (radio_after r twice) fuel samples tr =
    radio_deliver_all (radio_after r once) fuel samples tr.
Proof.
  eexists _, _. split; [reflexivity |]. split; [reflexivity |].
  split; [reflexivity |]. split; [reflexivity |]. split; reflexivity.
Qed.

(* ------------------------------------------------------------------ *)
(** * Streams of events and samples *)

Lemma framed_deliver_events (arg : ptr) (evs : list esp_event) :
  framed (deliver_events arg evs).
Proof.
  induction evs as [|[[event_base event_id] event_data] evs IH]; simpl.
  - apply framed_ret.
  - apply framed_bind; [apply framed_wifi_event_handler | intros _; exact IH].
Qed.

Lemma line_effects_quiet (info : wifi_csi_info_t) :
  connects_of (line_effects info) = 0%nat /\ logs_of (line_effects info) = [].
Proof.
  assert (Hloop : forall bs i,
             connects_of (loop_effects i bs) = 0%nat /\
             logs_of (loop_effects i bs) = [])
    by (induction bs as [|b bs IH]; intros i; simpl;
        [split; reflexivity | apply IH]).
  unfold line_effects. cbn [connects_of logs_of].
  rewrite connects_of_app, logs_of_app.
  destruct (Hloop (firstn (Z.to_nat (len info)) (buf info)) 0) as [-> ->].
  split; reflexivity.
Qed.

(** The handler always returns, and never calls [printf]. *)
Lemma wifi_event_handler_returns (arg : ptr) (ev : esp_event) :
  exists slice,
    wifi_event_handler arg (fst (fst ev)) (snd (fst ev)) (snd ev) [] =
      Ok tt slice /\
    stdout_of slice = EmptyString.
Proof.
  clear sta_ids_distinct bases_distinct.
  destruct ev as [[event_base event_id] event_data]. simpl.
  unfold wifi_event_handler. eqb_cases;
    eexists; (split; [reflexivity |]); reflexivity.
Qed.

(** What the handler emits for one event, by the kind of the event. *)
Lemma wifi_event_handler_effects (arg : ptr) (ev : esp_event) :
  exists slice,
    wifi_event_handler arg (fst (fst ev)) (snd (fst ev)) (snd ev) [] =
      Ok tt slice /\
    forallb is_connect_or_log slice = true /\
    connects_of slice =
      ((if is_sta_startb ev then 1 else 0)
       + (if is_sta_disconnectedb ev then 1 else 0))%nat /\
    length (logs_of slice) =
      ((if is_sta_disconnectedb ev then 1 else 0)
       + (if is_got_ipb ev then 1 else 0))%nat.
Proof.
  destruct ev as [[event_base event_id] event_data].
  unfold is_sta_startb, is_sta_disconnectedb, is_got_ipb. simpl.
  unfold wifi_event_handler. eqb_cases; try congruence;
    eexists; (split; [reflexivity |]); repeat split.
Qed.

Lemma length_filter_cons {A : Type} (p : A -> bool) (x : A) (l : list A) :
  length (filter p (x :: l)) =
  ((if p x then 1 else 0) + length (filter p l))%nat.
Proof. simpl. destruct (p x); reflexivity. Qed.

Lemma deliver_events_connects (arg : ptr) (evs : list esp_event) :
  forall tr, exists eff,
    deliver_events arg evs tr = Ok tt (tr ++ eff) /\
    connects_of eff =
      (length (filter is_sta_startb evs)
       + length (filter is_sta_disconnectedb evs))%nat.
Proof.
  induction evs as [|ev evs IH]; intros tr.
  - exists []. simpl. now rewrite app_nil_r.
  - destruct (wifi_event_handler_effects arg ev) as (sl & Hrun & _ & Hconn & _).
    destruct (IH (tr ++ sl)) as (eff & Hrest & Hconns).
    exists (sl ++ eff). split.
    + destruct ev as [[event_base event_id] event_data].
      cbn [deliver_events]. unfold bind.
      rewrite (framed_wifi_event_handler arg event_base event_id event_data tr).
      simpl in Hrun. rewrite Hrun. cbn [prepend]. rewrite Hrest.
      now rewrite <- app_assoc.
    + rewrite connects_of_app, Hconn, Hconns, !length_filter_cons. lia.
Qed.

(** X6.  For any sequence of events whatever, the handler returns every time;
    all it does is issue connect requests and write log entries; the
    connect requests number as many as the station-started and
    station-disconnected events of the sequence, the log entries as many
    as its station-disconnected and address-assigned events. *)
Theorem deliver_events_counts (arg : ptr) (evs : list esp_event)
    (tr : trace) :
  exists eff,
    deliver_events arg evs tr = Ok tt (tr ++ eff) /\
    forallb is_connect_or_log eff = true /\
    connects_of eff =
      (length (filter is_sta_startb evs)
       + length (filter is_sta_disconnectedb evs))%nat /\
    length (logs_of eff) =
      (length (filter is_sta_disconnectedb evs)
       + length (filter is_got_ipb evs))%nat.
Proof.
  revert tr. induction evs as [|ev evs IH]; intros tr.
  - exists []. simpl. rewrite app_nil_r. repeat split.
  - destruct (wifi_event_handler_effects arg ev)
      as (sl & Hrun & Hkind & Hconn & Hlogs).
    destruct (IH (tr ++ sl)) as (eff & Hrest & Hkinds & Hconns & Hlogss).
    exists (sl ++ eff). split; [| split; [| split]].
    + destruct ev as [[event_base event_id] event_data].
      cbn [deliver_events]. unfold bind.
      rewrite (framed_wifi_event_handler arg event_base event_id event_data tr).
      simpl in Hrun. rewrite Hrun. cbn [prepend]. rewrite Hrest.
      now rewrite <- app_assoc.
    + rewrite forallb_app, Hkind, Hkinds. reflexivity.
    + rewrite connects_of_app, Hconn, Hconns, !length_filter_cons. lia.
    + rewrite logs_of_app, length_app, Hlogs, Hlogss, !length_filter_cons. lia.
Qed.

(** X7.  From reset: [app_main] initialises the non-volatile storage before
    anything else, runs the whole of [wifi_init] and issues no connect
    request of its own; followed by any sequence of events, the connect
    requests issued since reset number as many as the station-started and
    station-disconnected events. *)
Theorem app_main_then_events (arg : ptr) (evs : list esp_event)
    (tr : trace) :
  exists boot eff,
    app_main tr = Ok tt (tr ++ boot) /\
    boot = E_nvs_flash_init :: trace_of (wifi_init []) /\
    connects_of boot = 0%nat /\
    (app_main ;; deliver_events arg evs) tr = Ok tt (tr ++ boot ++ eff) /\
    connects_of (boot ++ eff) =
      (length (filter is_sta_startb evs)
       + length (filter is_sta_disconnectedb evs))%nat.
Proof.
  assert (Hboot : app_main tr =
                  Ok tt (tr ++ E_nvs_flash_init :: trace_of (wifi_init []))).
  { unfold app_main, bind, nvs_flash_init, emit.
    rewrite (framed_wifi_init (tr ++ [E_nvs_flash_init])).
    cbn [prepend wifi_init]. simpl. now rewrite <- app_assoc. }
  destruct (deliver_events_connects arg evs
              (tr ++ E_nvs_flash_init :: trace_of (wifi_init [])))
    as (eff & Hrun & Hconn).
  exists (E_nvs_flash_init :: trace_of (wifi_init [])), eff.
  split; [exact Hboot |]. split; [reflexivity |]. split; [reflexivity |].
  split.
  - unfold bind at 1. rewrite Hboot, Hrun. now rewrite <- app_assoc.
  - rewrite connects_of_app, Hconn. reflexivity.
Qed.

(** X8.  The two callbacks do not disturb each other.  In any interleaving of
    events and delivered samples, both return every time; the text
    written through [printf] is the lines of the samples in their order,
    as if no event had come; the connect requests and log entries are
    those of the events in their order, as if no sample had come. *)
Theorem react_callbacks_independent (fuel : nat) (arg ctx : ptr)
    (sts : list stimulus) (tr : trace) :
  Forall (fun info => delivered info /\ (Z.to_nat (len info) < fuel)%nat)
         (samples_of sts) ->
  exists eff evs_eff,
    react fuel arg ctx sts tr = Ok tt (tr ++ eff) /\
    stdout_of eff = csi_text (samples_of sts) /\
    deliver_events arg (events_of sts) [] = Ok tt evs_eff /\
    connects_of eff = connects_of evs_eff /\
    logs_of eff = logs_of evs_eff.
Proof.
  clear sta_ids_distinct bases_distinct.
  revert tr. induction sts as [|[ev | info] sts IH]; intros tr Hall.
  - exists [], []. simpl. rewrite app_nil_r. repeat split.
  - destruct (wifi_event_handler_returns arg ev) as (sl & Hrun & Hout).
    destruct (IH (tr ++ sl) Hall) as (eff & evs_eff & Hrest & Htext & Hevs & Hc & Hl).
    exists (sl ++ eff), (sl ++ evs_eff).
    destruct ev as [[event_base event_id] event_data]. simpl in Hrun.
    split; [| split; [| split; [| split]]].
    + cbn [react]. unfold bind.
      rewrite (framed_wifi_event_handler arg event_base event_id event_data tr),
              Hrun.
      cbn [prepend]. rewrite Hrest. now rewrite <- app_assoc.
    + rewrite stdout_of_app, Hout, Htext. reflexivity.
    + cbn [events_of deliver_events]. unfold bind. rewrite Hrun.
      rewrite (framed_deliver_events arg (events_of sts) sl), Hevs.
      reflexivity.
    + rewrite !connects_of_app, Hc. reflexivity.
    + rewrite !logs_of_app, Hl. reflexivity.
  - cbn [samples_of] in Hall. inversion Hall as [|? ? [Hd Hfuel] Hall']; subst.
    destruct (IH (tr ++ line_effects info) Hall')
      as (eff & evs_eff & Hrest & Htext & Hevs & Hc & Hl).
    exists (line_effects info ++ eff), evs_eff.
    destruct (line_effects_quiet info) as [Hq1 Hq2].
    split; [| split; [| split; [| split]]].
    + cbn [react]. unfold bind.
      rewrite (wifi_csi_cb_delivered fuel ctx info tr Hd Hfuel), Hrest.
      now rewrite <- app_assoc.
    + rewrite stdout_of_app, stdout_of_line_effects, Htext. reflexivity.
    + exact Hevs.
    + rewrite connects_of_app, Hq1, Hc. reflexivity.
    + rewrite logs_of_app, Hq2, Hl. reflexivity.
Qed.

End Firmware.

(* ------------------------------------------------------------------ *)
(** * Worked instances

    The header constants are instantiated with the values of the ESP-IDF
    enumerations ([WIFI_EVENT_STA_START] = 2, [WIFI_EVENT_STA_DISCONNECTED]
    = 5, [IP_EVENT_STA_GOT_IP] = 0, [ESP_EVENT_ANY_ID] = -1,
    [WIFI_MODE_STA] = 1, [WIFI_IF_STA] = 0, [WIFI_AUTH_WPA2_PSK] = 3) and
    with two distinct addresses, 100 and 200, for the event bases. *)

(** ** The CSI callback on concrete samples *)

Example wifi_csi_cb_1_m2_44 :
  wifi_csi_cb 4 NULL sample_1_m2_44 [] =
    Ok tt [ E_stdout "CSI_DATA: ";
            E_load 0; E_stdout "1 ";
            E_load 1; E_stdout "-2 ";
            E_load 2; E_stdout "44 ";
            E_stdout LF ] /\
  stdout_of (trace_of (wifi_csi_cb 4 NULL sample_1_m2_44 [])) =
    String.append "CSI_DATA: 1 -2 44 " LF.
Proof. split; reflexivity. Qed.

Example wifi_csi_cb_extremes :
  stdout_of (trace_of (wifi_csi_cb 4 NULL
                         {| buf := [x00; x80; x7f]; len := 3 |} [])) =
    String.append "CSI_DATA: 0 -128 127 " LF.
Proof. reflexivity. Qed.

(** A length beyond the storage: the fourth read is out of bounds. *)
Example wifi_csi_cb_short_buffer :
  wifi_csi_cb 9 NULL {| buf := [x01; xfe; x2c]; len := 4 |} [] =
    Fault [ E_stdout "CSI_DATA: ";
            E_load 0; E_stdout "1 ";
            E_load 1; E_stdout "-2 ";
            E_load 2; E_stdout "44 ";
            E_load 3 ].
Proof. reflexivity. Qed.

Example spec_csi_line_1_m2_44 :
  spec_csi_line (sample_values sample_1_m2_44) =
    String.append "CSI_DATA: 1 -2 44" LF.
Proof. reflexivity. Qed.

(** No element of a sample reads as 300. *)
Lemma int8_of_byte_not_300 (b : byte) : int8_of_byte b <> 300.
Proof. pose proof (int8_of_byte_range b). lia. Qed.

(** The body of a line for a non-empty sample ends with a space. *)
Lemma csi_body_ends_with_space (v : Z) (values : list Z) :
  exists s, csi_body (v :: values) = String.append s " ".
Proof.
  revert v. induction values as [|w values IH]; intros v.
  - exists (decimal v). reflexivity.
  - destruct (IH w) as [s Hs].
    exists (String.append (decimal v) (String " "%char s)).
    change (csi_body (v :: w :: values))
      with (String.append (decimal v) (String " "%char (csi_body (w :: values)))).
    rewrite Hs, string_app_assoc. reflexivity.
Qed.

(** C1, as stated, fails: for the sample [1, -2, 44] the callback writes a
    space between the last token and the newline, which the line of the
    specification does not have. *)
Lemma wifi_csi_cb_trailing_space :
  stdout_of (trace_of (wifi_csi_cb 4 NULL sample_1_m2_44 [])) <>
  spec_csi_line (sample_values sample_1_m2_44).
Proof. vm_compute. discriminate. Qed.

Lemma wifi_csi_cb_emits_line_witness :
  len sample_1_m2_44 <= Z.of_nat (length (buf sample_1_m2_44)) /\
  len sample_1_m2_44 <= INT_MAX /\
  (Z.to_nat (len sample_1_m2_44) < 4)%nat /\
  exists eff,
    wifi_csi_cb 4 NULL sample_1_m2_44 [] = Ok tt ([] ++ eff) /\
    stdout_of eff = csi_line (sample_values sample_1_m2_44) /\
    length (sample_values sample_1_m2_44) = Z.to_nat (len sample_1_m2_44) /\
    tokens (csi_body (sample_values sample_1_m2_44)) =
      map decimal (sample_values sample_1_m2_44) /\
    all_chars (fun c => c <> "010"%char)
      (String.append "CSI_DATA: " (csi_body (sample_values sample_1_m2_44))).
Proof.
  assert (H1 : len sample_1_m2_44 <= Z.of_nat (length (buf sample_1_m2_44)))
    by (simpl; lia).
  assert (H2 : len sample_1_m2_44 <= INT_MAX) by (vm_compute; discriminate).
  assert (H3 : (Z.to_nat (len sample_1_m2_44) < 4)%nat) by (simpl; lia).
  split; [exact H1 |]. split; [exact H2 |]. split; [exact H3 |].
  exact (wifi_csi_cb_emits_line 4 NULL sample_1_m2_44 [] H1 H2 H3).
Defined.

Lemma wifi_csi_cb_empty_sample_witness :
  len sample_empty = 0 /\
  (0 < 1)%nat /\
  wifi_csi_cb 1 NULL sample_empty [] =
    Ok tt ([] ++ [E_stdout "CSI_DATA: "; E_stdout LF]) /\
  stdout_of [E_stdout "CSI_DATA: "; E_stdout LF] =
    String.append "CSI_DATA: " LF.
Proof.
  assert (H1 : len sample_empty = 0) by reflexivity.
  assert (H2 : (0 < 1)%nat) by lia.
  split; [exact H1 |]. split; [exact H2 |].
  exact (wifi_csi_cb_empty_sample 1 NULL sample_empty [] H1 H2).
Defined.

Lemma wifi_csi_cb_reads_in_bounds_witness :
  len sample_1_m2_44 <= INT_MAX /\
  (Z.to_nat (len sample_1_m2_44) < 4)%nat /\
  exists eff,
    trace_of (wifi_csi_cb 4 NULL sample_1_m2_44 []) = [] ++ eff /\
    Forall (fun j => 0 <= j < len sample_1_m2_44) (loads_of eff).
Proof.
  assert (H0 : len sample_1_m2_44 <= INT_MAX) by (vm_compute; discriminate).
  assert (H1 : (Z.to_nat (len sample_1_m2_44) < 4)%nat) by (simpl; lia).
  split; [exact H0 |]. split; [exact H1 |].
  destruct (wifi_csi_cb_reads_in_bounds 4 NULL sample_1_m2_44 [] H0 H1)
    as (eff & _ & Htr & Hin & _).
  exists eff. split; assumption.
Defined.

(** A second sample with the same first three bytes in a larger buffer,
    delivered with another context and after another history. *)
Lemma wifi_csi_cb_deterministic_witness :
  exists o : outcome unit,
    o <> OutOfFuel /\
    wifi_csi_cb 4 NULL sample_1_m2_44 [] = prepend [] o /\
    wifi_csi_cb 9 7 {| buf := [x01; xfe; x2c; xff; x00]; len := 3 |}
                [E_esp_wifi_connect] = prepend [E_esp_wifi_connect] o.
Proof.
  destruct (wifi_csi_cb_deterministic 4 9 NULL 7 sample_1_m2_44
              {| buf := [x01; xfe; x2c; xff; x00]; len := 3 |}
              [] [E_esp_wifi_connect])
    as (o & Hfuel & H1 & H2 & _);
    [reflexivity | reflexivity | vm_compute; discriminate
     | simpl; lia | simpl; lia |].
  exists o. repeat split; assumption.
Defined.

(** ** The event handler on concrete events *)

Lemma deliver_events_one_connect_each_witness :
  exists slices : list trace,
    deliver_events 100 200 2 5 0 NULL
      [(100, 2, NULL); (100, 5, NULL); (100, 5, NULL)] [] =
      Ok tt ([] ++ concat slices) /\
    connects_of (concat slices) = 3%nat.
Proof.
  destruct (deliver_events_one_connect_each 100 200 2 5 0 NULL
              [(100, 2, NULL); (100, 5, NULL); (100, 5, NULL)] [])
    as (slices & Hrun & _ & Hcount).
  - repeat constructor; unfold is_sta_start, is_sta_disconnected; simpl;
      (left; split; reflexivity) || (right; split; reflexivity).
  - exists slices. split; assumption.
Defined.

Lemma wifi_event_handler_disconnected_witness :
  2 <> 5 /\
  wifi_event_handler 100 200 2 5 0 NULL 100 5 NULL [] =
    Ok tt ([] ++ [E_esp_wifi_connect;
                  E_ESP_LOGI TAG "Retrying WiFi connection..."]).
Proof.
  assert (H : 2 <> 5) by discriminate.
  split; [exact H |].
  exact (proj1 (wifi_event_handler_disconnected 100 200 2 5 0 H NULL NULL [])).
Defined.

Lemma wifi_event_handler_got_ip_witness :
  100 <> 200 /\
  wifi_event_handler 100 200 2 5 0 NULL 200 0 NULL [] =
    Ok tt ([] ++ [E_ESP_LOGI TAG
                    "WiFi connected. CSI should start appearing."]).
Proof.
  assert (H : 100 <> 200) by discriminate.
  split; [exact H |].
  exact (proj1 (wifi_event_handler_got_ip 100 200 2 5 0 H NULL NULL [])).
Defined.

(** [WIFI_EVENT_STA_STOP] (3) is none of the three events. *)
Lemma wifi_event_handler_ignores_others_witness :
  wifi_event_handler 100 200 2 5 0 NULL 100 3 NULL [E_esp_wifi_start] =
    Ok tt [E_esp_wifi_start].
Proof.
  apply (wifi_event_handler_ignores_others 100 200 2 5 0 NULL 100 3 NULL).
  unfold is_sta_start, is_sta_disconnected, is_got_ip. simpl.
  intros [[_ H] | [[_ H] | [H _]]]; discriminate H.
Defined.

(** ** Initialisation *)

(** C3, as stated, fails: the steps of the specification do not occur in
    the order it gives, because the station mode is selected before the
    Connection Configuration is applied; and the start of the radio is
    not the last step. *)
Lemma spec_initialize_order_refuted :
  ~ occurs_in_order spec_initialize_order
      (steps_of (trace_of (wifi_init 100 200 0 (-1) 1 0 3 []))) /\
  last (steps_of (trace_of (wifi_init 100 200 0 (-1) 1 0 3 []))) start
    <> start.
Proof.
  split; [| discriminate].
  intros H. apply in_order_complete in H. discriminate H.
Qed.

(** ** Further instances *)

Lemma delivered_sample_1_m2_44 : delivered sample_1_m2_44.
Proof. split; [simpl; lia | vm_compute; discriminate]. Qed.

Lemma delivered_sample_empty : delivered sample_empty.
Proof. split; [simpl; lia | vm_compute; discriminate]. Qed.

(** The same three elements at the head of a larger buffer give the same
    line, and the line gives back the three elements. *)
Lemma wifi_csi_cb_line_determines_sample_witness :
  sample_values sample_1_m2_44 =
    sample_values {| buf := [x01; xfe; x2c; xff]; len := 3 |} /\
  sample_values sample_1_m2_44 = [1; -2; 44].
Proof.
  split; [| reflexivity].
  apply (wifi_csi_cb_line_determines_sample 4 7 NULL NULL sample_1_m2_44
           {| buf := [x01; xfe; x2c; xff]; len := 3 |}).
  - exact delivered_sample_1_m2_44.
  - split; [simpl; lia | vm_compute; discriminate].
  - simpl; lia.
  - simpl; lia.
  - reflexivity.
Defined.

Lemma wifi_csi_cb_line_length_witness :
  exists eff,
    wifi_csi_cb 4 NULL sample_1_m2_44 [] = Ok tt ([] ++ eff) /\
    (11 + 2 * 3 <= String.length (stdout_of eff) <= 11 + 5 * 3)%nat.
Proof.
  apply (wifi_csi_cb_line_length 4 NULL sample_1_m2_44 []).
  - exact delivered_sample_1_m2_44.
  - simpl; lia.
Defined.


Lemma wifi_csi_cb_only_reads_and_prints_witness :
  exists eff,
    trace_of (wifi_csi_cb 4 NULL sample_1_m2_44 [E_esp_wifi_connect]) =
      [E_esp_wifi_connect] ++ eff /\
    forallb is_stdout_or_load eff = true /\
    printf_calls eff = 5%nat.
Proof.
  destruct (wifi_csi_cb_only_reads_and_prints 4 NULL sample_1_m2_44
              [E_esp_wifi_connect])
    as (eff & Htr & Hlocal & _ & _ & Hcount);
    [vm_compute; discriminate | simpl; lia |].
  exists eff. repeat split; try assumption.
  apply Hcount. simpl; lia.
Defined.

Lemma deliver_samples_one_line_each_witness :
  exists eff,
    deliver_samples 4 NULL [sample_1_m2_44; sample_empty] [] =
      Ok tt ([] ++ eff) /\
    lines (stdout_of eff) = ["CSI_DATA: 1 -2 44 "; "CSI_DATA: "]%string.
Proof.
  destruct (deliver_samples_one_line_each 4 NULL
              [sample_1_m2_44; sample_empty] [])
    as (eff & Hrun & _ & Hlines).
  - repeat constructor; simpl; try lia; vm_compute; discriminate.
  - exists eff. split; assumption.
Defined.

(** Start, two disconnections, an address, and a scan-done event (1). *)
Lemma deliver_events_counts_witness :
  exists eff,
    deliver_events 100 200 2 5 0 NULL
      [(100, 2, NULL); (100, 5, NULL); (200, 0, NULL); (100, 1, NULL);
       (100, 5, NULL)] [] = Ok tt ([] ++ eff) /\
    connects_of eff = 3%nat /\
    length (logs_of eff) = 3%nat.
Proof.
  destruct (deliver_events_counts 100 200 2 5 0) with
    (arg := NULL)
    (evs := [(100, 2, NULL); (100, 5, NULL); (200, 0, NULL); (100, 1, NULL);
             (100, 5, NULL)])
    (tr := @nil effect)
    as (eff & Hrun & _ & Hconn & Hlogs); [discriminate | discriminate |].
  exists eff. repeat split; assumption.
Defined.

Lemma app_main_then_events_witness :
  exists boot eff,
    (app_main 100 200 0 (-1) 1 0 3 ;;
     deliver_events 100 200 2 5 0 NULL [(100, 2, NULL); (100, 5, NULL)])%monad
      [] = Ok tt ([] ++ boot ++ eff) /\
    connects_of (boot ++ eff) = 2%nat.
Proof.
  destruct (app_main_then_events 100 200 2 5 0 (-1) 1 0 3) with
    (arg := NULL) (evs := [(100, 2, NULL); (100, 5, NULL)])
    (tr := @nil effect)
    as (boot & eff & _ & _ & _ & Hrun & Hconn);
    [discriminate | discriminate |].
  exists boot, eff. split; assumption.
Defined.

Lemma react_callbacks_independent_witness :
  exists eff,
    react 100 200 2 5 0 4 NULL NULL
      [on_event (100, 2, NULL); on_sample sample_1_m2_44;
       on_event (100, 5, NULL); on_sample sample_empty] [] =
      Ok tt ([] ++ eff) /\
    stdout_of eff = csi_text [sample_1_m2_44; sample_empty].
Proof.
  destruct (react_callbacks_independent 100 200 2 5 0 4 NULL NULL
              [on_event (100, 2, NULL); on_sample sample_1_m2_44;
               on_event (100, 5, NULL); on_sample sample_empty] [])
    as (eff & evs_eff & Hrun & Hout & _).
  - repeat constructor; simpl; try lia; vm_compute; discriminate.
  - exists eff. split; assumption.
Defined.
